(** * Sortable: derived rich comparisons

    A shallow embedding of [sortable/core.py] (the [Sortable] abstract base
    class, its [__init_subclass__] hook and the fourteen module-level
    functions it installs) and of [examples/example.py] ([Person],
    [Student]), together with the part of the Python object model these
    rely on: attribute lookup along the class chain, the abstract-method
    flag, the rich-comparison operator protocol and the interpreter's
    recursion limit. *)

From stdpp Require Import gmap strings list fin_maps.
From Stdlib Require Import String ZArith Lia.

(** ** Values, exceptions, call traces *)

(** What a comparison method can hand back: a bool, [None] (a body that is
    just [pass]) or the [NotImplemented] sentinel. *)
Inductive value :=
| VBool (b : bool)
| VNone
| NotImplemented.

Inductive exn :=
| TypeError
| ValueError
| KeyError
| AttributeError
| RecursionError.

Inductive outcome (A : Type) :=
| Ret (a : A)
| Raise (e : exn).
Arguments Ret {A} a.
Arguments Raise {A} e.

(** [bool(v)].  [NotImplemented] is never truth-tested by the code below:
    every function checks [is NotImplemented] first. *)
Definition truthy (v : value) : bool :=
  match v with
  | VBool b => b
  | VNone => false
  | NotImplemented => true
  end.

Definition is_NotImplemented (v : value) : bool :=
  match v with
  | NotImplemented => true
  | _ => false
  end.

(** One entry per method invocation: the attribute name that was looked up
    and the identities of the two operands it was called with. *)
Record event := Invoke { ev_name : string; ev_self : N; ev_other : N }.

(** Computations that may raise and that record the methods they invoke. *)
Definition M (A : Type) : Type := list event * outcome A.

Definition ret {A} (a : A) : M A := ([], Ret a).
Definition raise {A} (e : exn) : M A := ([], Raise e).
Definition tell (ev : event) : M unit := ([ev], Ret tt).
Definition lift {A} (o : outcome A) : M A := ([], o).

Definition bind {A B} (c : M A) (k : A -> M B) : M B :=
  match c with
  | (t, Ret a) => let '(t', r) := k a in (t ++ t', r)
  | (t, Raise e) => (t, Raise e)
  end.

Notation "'do' x <- c 'in' k" := (bind c (fun x => k))
  (at level 10, x name, c at level 100, k at level 200).

Definition trace {A} (c : M A) : list event := fst c.
Definition result {A} (c : M A) : outcome A := snd c.

(** The same for code that raises but calls no comparison method. *)
Definition obind {A B} (c : outcome A) (k : A -> outcome B) : outcome B :=
  match c with
  | Ret a => k a
  | Raise e => Raise e
  end.

(** ** Objects and classes *)

Inductive attr :=
| AStr (s : string)
| AInt (z : Z).

(** An instance without its class: identity and [__dict__]. *)
Record pyobj := { ob_id : N; ob_dict : gmap string attr }.

(** The fourteen functions defined at module level in core.py. *)
Inductive derived :=
| ne_from_eq | eq_from_ne
| gt_from_lt | le_from_lt | ge_from_lt
| ge_from_le | lt_from_le | gt_from_le
| lt_from_gt | ge_from_gt | le_from_gt
| le_from_ge | gt_from_ge | lt_from_ge.

(** What a class dictionary binds a name to: a function written by a
    class author (its [__isabstractmethod__] flag and its body, which reads
    the two operands and may raise), one of the module-level functions, or
    [None] (a class body may say [__lt__ = None]). *)
Inductive method :=
| PyFunc (isabstract : bool) (body : pyobj -> pyobj -> outcome value)
| Synth (fn : derived)
| PyNone.

(** [getattr(fn, '__isabstractmethod__', False)] *)
Definition isabstractmethod (fn : method) : bool :=
  match fn with
  | PyFunc b _ => b
  | Synth _ => false
  | PyNone => false
  end.

(** Classes deriving (by single inheritance) from [Sortable]: the class's
    own [__dict__], its [__abstractmethods__] when that attribute has been
    set, and its base. *)
Inductive class :=
| Sortable
| Subclass (name : string) (dict : gmap string method)
    (abstractmethods : option (gset string)) (base : class).

(** [@abstractmethod def __xx__(self, other) -> bool: pass] *)
Definition abstract_stub : method := PyFunc true (fun _ _ => Ret VNone).

Definition Sortable_dict : gmap string method :=
  list_to_map [("__eq__", abstract_stub); ("__ne__", abstract_stub);
               ("__lt__", abstract_stub); ("__le__", abstract_stub);
               ("__gt__", abstract_stub); ("__ge__", abstract_stub)].

Definition Sortable_abstractmethods : gset string :=
  list_to_set ["__eq__"; "__ne__"; "__lt__"; "__le__"; "__gt__"; "__ge__"].

Definition cls_name (cls : class) : string :=
  match cls with
  | Sortable => "Sortable"
  | Subclass name _ _ _ => name
  end.

Definition cls_dict (cls : class) : gmap string method :=
  match cls with
  | Sortable => Sortable_dict
  | Subclass _ dict _ _ => dict
  end.

Definition cls_abstractmethods (cls : class) : option (gset string) :=
  match cls with
  | Sortable => Some Sortable_abstractmethods
  | Subclass _ _ a _ => a
  end.

(** [getattr(cls, name, None)]: the class's own dictionary first, then the
    bases'.  Python's result is [None] both when no class on the way has
    the name (here [None]) and when the nearest one binds it to [None]
    (here [Some PyNone]). *)
Fixpoint getattr (cls : class) (name : string) : option method :=
  match cls with
  | Sortable => Sortable_dict !! name
  | Subclass _ dict _ base =>
      match dict !! name with
      | Some fn => Some fn
      | None => getattr base name
      end
  end.

(** [setattr(cls, name, fn)] writes the class's own dictionary.  The hook
    below only ever runs for proper subclasses of [Sortable]. *)
Definition setattr (cls : class) (name : string) (fn : method) : class :=
  match cls with
  | Sortable => Sortable
  | Subclass n dict a base => Subclass n (<[name := fn]> dict) a base
  end.

Record instance := { ob_type : class; ob_self : pyobj }.

Definition id (o : instance) : N := ob_id (ob_self o).

(** [v is w] *)
Definition py_is (v w : instance) : bool := N.eqb (id v) (id w).

(** A class is identified by its name together with the names of its
    bases up to [Sortable], so that a subclass is told apart from its base
    even when it reuses the base's name. *)
Fixpoint mro_names (cls : class) : list string :=
  cls_name cls ::
  match cls with
  | Sortable => []
  | Subclass _ _ _ base => mro_names base
  end.

Definition same_type (c1 c2 : class) : bool :=
  bool_decide (mro_names c1 = mro_names c2).

Fixpoint issubtype (c base : class) : bool :=
  same_type c base ||
  match c with
  | Sortable => false
  | Subclass _ _ _ b => issubtype b base
  end.

(** ** The comparison machinery *)

Inductive cmpop := Py_LT | Py_LE | Py_EQ | Py_NE | Py_GT | Py_GE.

Definition dunder (op : cmpop) : string :=
  match op with
  | Py_LT => "__lt__" | Py_LE => "__le__"
  | Py_EQ => "__eq__" | Py_NE => "__ne__"
  | Py_GT => "__gt__" | Py_GE => "__ge__"
  end.

(** The reflected operation tried on the right operand. *)
Definition swapped_op (op : cmpop) : cmpop :=
  match op with
  | Py_LT => Py_GT | Py_LE => Py_GE
  | Py_EQ => Py_EQ | Py_NE => Py_NE
  | Py_GT => Py_LT | Py_GE => Py_LE
  end.

Section Bodies.

(** Calling a function with the frames that are left below the current
    one. *)
Variable call : method -> instance -> instance -> M value.

(** [type(self).__xx__(self, other)]: the name is looked up on the class
    of [self] when the call is made. *)
Definition call_method (self : instance) (name : string) (other : instance)
  : M value :=
  match getattr (ob_type self) name with
  | Some fn =>
      do _ <- tell (Invoke name (id self) (id other)) in call fn self other
  | None => raise AttributeError
  end.

(** [self.__xx__(other)] is an attribute access on the instance: an entry
    of the instance's [__dict__] hides the class's function (a function is
    not a data descriptor), and the strings and numbers an instance
    [__dict__] holds here cannot be called. *)
Definition call_attribute (self : instance) (name : string) (other : instance)
  : M value :=
  match ob_dict (ob_self self) !! name with
  | Some _ => raise TypeError
  | None => call_method self name other
  end.

(** The class's comparison slot: absent method means [NotImplemented]. *)
Definition slot_tp_richcompare (self other : instance) (op : cmpop)
  : M value :=
  match getattr (ob_type self) (dunder op) with
  | Some fn =>
      do _ <- tell (Invoke (dunder op) (id self) (id other)) in
      call fn self other
  | None => ret NotImplemented
  end.

(** The operators [v < w], [v == w], ...: the right operand's reflected
    method goes first when its class is a proper subclass of the left
    one's; then the left operand's method; then the reflected one; then
    identity for [==] and [!=], and [TypeError] for the orderings. *)
Definition richcompare (v w : instance) (op : cmpop) : M value :=
  let checked_reverse_op :=
    negb (same_type (ob_type v) (ob_type w)) &&
    issubtype (ob_type w) (ob_type v) in
  do res <- (if checked_reverse_op
             then slot_tp_richcompare w v (swapped_op op)
             else ret NotImplemented) in
  if negb (is_NotImplemented res) then ret res else
  do res <- slot_tp_richcompare v w op in
  if negb (is_NotImplemented res) then ret res else
  do res <- (if checked_reverse_op
             then ret NotImplemented
             else slot_tp_richcompare w v (swapped_op op)) in
  if negb (is_NotImplemented res) then ret res else
  match op with
  | Py_EQ => ret (VBool (py_is v w))
  | Py_NE => ret (VBool (negb (py_is v w)))
  | _ => raise TypeError
  end.

(** *** core.py, lines 86-178 *)

Definition _ne__from_eq (self other : instance) : M value :=
  do result <- call_attribute self "__ne__" other in
  if negb (is_NotImplemented result)
  then ret (VBool (negb (truthy result)))
  else ret NotImplemented.

Definition _eq__from_ne (self other : instance) : M value :=
  do result <- call_attribute self "__eq__" other in
  if negb (is_NotImplemented result)
  then ret (VBool (negb (truthy result)))
  else ret NotImplemented.

Definition __gt__from_lt (self other : instance) : M value :=
  do op_result <- call_method self "__lt__" other in
  if is_NotImplemented op_result then ret op_result else
  if negb (truthy op_result)
  then richcompare self other Py_NE
  else ret (VBool false).

Definition __le__from_lt (self other : instance) : M value :=
  do op_result <- call_method self "__lt__" other in
  if is_NotImplemented op_result then ret op_result else
  if truthy op_result
  then ret op_result
  else richcompare self other Py_EQ.

Definition __ge__from_lt (self other : instance) : M value :=
  do op_result <- call_method self "__lt__" other in
  if is_NotImplemented op_result then ret op_result else
  ret (VBool (negb (truthy op_result))).

Definition __ge__from_le (self other : instance) : M value :=
  do op_result <- call_method self "__le__" other in
  if is_NotImplemented op_result then ret op_result else
  if negb (truthy op_result)
  then ret (VBool true)
  else richcompare self other Py_EQ.

Definition __lt__from_le (self other : instance) : M value :=
  do op_result <- call_method self "__le__" other in
  if is_NotImplemented op_result then ret op_result else
  if truthy op_result
  then richcompare self other Py_NE
  else ret op_result.

Definition __gt__from_le (self other : instance) : M value :=
  do op_result <- call_method self "__le__" other in
  if is_NotImplemented op_result then ret op_result else
  ret (VBool (negb (truthy op_result))).

Definition __lt__from_gt (self other : instance) : M value :=
  do op_result <- call_method self "__gt__" other in
  if is_NotImplemented op_result then ret op_result else
  if negb (truthy op_result)
  then richcompare self other Py_NE
  else ret (VBool false).

Definition __ge__from_gt (self other : instance) : M value :=
  do op_result <- call_method self "__gt__" other in
  if is_NotImplemented op_result then ret op_result else
  if truthy op_result
  then ret op_result
  else richcompare self other Py_EQ.

Definition __le__from_gt (self other : instance) : M value :=
  do op_result <- call_method self "__gt__" other in
  if is_NotImplemented op_result then ret op_result else
  ret (VBool (negb (truthy op_result))).

Definition __le__from_ge (self other : instance) : M value :=
  do op_result <- call_method self "__ge__" other in
  if is_NotImplemented op_result then ret op_result else
  if negb (truthy op_result)
  then ret (VBool true)
  else richcompare self other Py_EQ.

Definition __gt__from_ge (self other : instance) : M value :=
  do op_result <- call_method self "__ge__" other in
  if is_NotImplemented op_result then ret op_result else
  if truthy op_result
  then richcompare self other Py_NE
  else ret op_result.

Definition __lt__from_ge (self other : instance) : M value :=
  do op_result <- call_method self "__ge__" other in
  if is_NotImplemented op_result then ret op_result else
  ret (VBool (negb (truthy op_result))).

Definition derived_body (fn : derived) : instance -> instance -> M value :=
  match fn with
  | ne_from_eq => _ne__from_eq | eq_from_ne => _eq__from_ne
  | gt_from_lt => __gt__from_lt | le_from_lt => __le__from_lt
  | ge_from_lt => __ge__from_lt
  | ge_from_le => __ge__from_le | lt_from_le => __lt__from_le
  | gt_from_le => __gt__from_le
  | lt_from_gt => __lt__from_gt | ge_from_gt => __ge__from_gt
  | le_from_gt => __le__from_gt
  | le_from_ge => __le__from_ge | gt_from_ge => __gt__from_ge
  | lt_from_ge => __lt__from_ge
  end.

End Bodies.

(** Calling what a class binds a name to.  [None] cannot be called.  For
    a function, [depth] is the number of frames the interpreter still
    allows: entering a function takes one, and with none left the call
    raises [RecursionError]. *)
Fixpoint call (depth : nat) (fn : method) (self other : instance) : M value :=
  match fn, depth with
  | PyNone, _ => raise TypeError
  | _, O => raise RecursionError
  | PyFunc _ body, S d => lift (body (ob_self self) (ob_self other))
  | Synth f, S d => derived_body (call d) f self other
  end.

(** The comparison operators as evaluated by a caller that has [depth]
    frames left. *)
Definition py_compare (depth : nat) (op : cmpop) (v w : instance) : M value :=
  richcompare (call depth) v w op.

(** ** Registration: [Sortable.__init_subclass__] *)

(** core.py, lines 180-186; dictionaries in insertion order. *)
Definition _compare_ops : list string :=
  ["__lt__"; "__le__"; "__gt__"; "__ge__"].

Definition _compare_conversions : list (string * list (string * derived)) :=
  [("__lt__", [("__le__", le_from_lt); ("__gt__", gt_from_lt);
               ("__ge__", ge_from_lt)]);
   ("__ge__", [("__lt__", lt_from_ge); ("__le__", le_from_ge);
               ("__gt__", gt_from_ge)]);
   ("__le__", [("__lt__", lt_from_le); ("__gt__", gt_from_le);
               ("__ge__", ge_from_le)]);
   ("__gt__", [("__lt__", lt_from_gt); ("__le__", le_from_gt);
               ("__ge__", ge_from_gt)])].

(** [d[key]] *)
Fixpoint getitem {V} (d : list (string * V)) (key : string) : option V :=
  match d with
  | [] => None
  | (k, v) :: rest => if String.eqb k key then Some v else getitem rest key
  end.

(** [max] of a collection of strings, which Python orders by code point;
    [None] stands for the [ValueError] on an empty collection. *)
Definition py_max (xs : list string) : option string :=
  match xs with
  | [] => None
  | x :: rest =>
      Some (fold_left (fun m y => if String.ltb m y then y else m) rest x)
  end.

(** The helper local to the hook: the attribute [is not None] and is not
    flagged abstract. *)
Definition is_concrete (cls : class) (name : string) : bool :=
  match getattr cls name with
  | None | Some PyNone => false
  | Some fn => negb (isabstractmethod fn)
  end.

(** Line 72. *)
Definition concrete_ops (cls : class) : list string :=
  List.filter
    (fun op => match getattr cls op with
               | None | Some PyNone => false
               | Some _ => is_concrete cls op
               end)
    (map fst _compare_conversions).

(** Line 73. *)
Definition root_of (cls : class) : option string := py_max (concrete_ops cls).

Definition name_in (name : string) (names : list string) : bool :=
  existsb (String.eqb name) names.

(** Lines 74-77. *)
Definition install_missing (concrete : list string)
    (convs : list (string * derived)) (cls : class) : class :=
  fold_left
    (fun c '(opname, opfunc) =>
       if negb (name_in opname concrete)
       then setattr c opname (Synth opfunc)
       else c)
    convs cls.

(** Names that stay abstract for [cls]: those of the base's
    [__abstractmethods__] whose value seen from [cls] is still abstract,
    and the abstract entries of the class's own dictionary. *)
Definition is_abstract (cls : class) (name : string) : bool :=
  match getattr cls name with
  | Some fn => isabstractmethod fn
  | None => false
  end.

Definition inherited_abstracts (cls : class) : gset string :=
  match cls with
  | Sortable => ∅
  | Subclass _ _ _ base =>
      match cls_abstractmethods base with
      | Some names => filter (fun name => is_abstract cls name = true) names
      | None => ∅
      end
  end.

Definition own_abstracts (cls : class) : gset string :=
  dom (filter (fun kv => isabstractmethod (snd kv) = true) (cls_dict cls)).

Definition set_abstractmethods (cls : class) (names : gset string) : class :=
  match cls with
  | Sortable => Sortable
  | Subclass n dict _ base => Subclass n dict (Some names) base
  end.

(** [abc.update_abstractmethods]: a class that has no [__abstractmethods__]
    attribute of its own is returned as it is. *)
Definition update_abstractmethods (cls : class) : class :=
  match cls_abstractmethods cls with
  | None => cls
  | Some _ =>
      set_abstractmethods cls (inherited_abstracts cls ∪ own_abstracts cls)
  end.

(** Lines 44-83.  Class keyword arguments are not modelled:
    [super().__init_subclass__()] is then [object]'s, which does nothing. *)
Definition __init_subclass__ (cls : class) : outcome class :=
  let has_eq := is_concrete cls "__eq__" in
  let has_ne := is_concrete cls "__ne__" in
  if negb (has_eq || has_ne) then Raise TypeError else
  let cls := if negb has_ne then setattr cls "__ne__" (Synth ne_from_eq)
             else cls in
  let cls := if negb has_eq then setattr cls "__eq__" (Synth eq_from_ne)
             else cls in
  obind
    (if existsb (is_concrete cls) _compare_ops then
       let concrete := concrete_ops cls in
       match py_max concrete with
       | None => Raise ValueError
       | Some root =>
           match getitem _compare_conversions root with
           | None => Raise KeyError
           | Some convs => Ret (install_missing concrete convs cls)
           end
       end
     else Ret cls)
    (fun cls => Ret (update_abstractmethods cls)).

(** ** Defining and instantiating classes *)

(** What [ABCMeta] does once [type.__new__], and with it the hook, has
    returned: compute [__abstractmethods__]. *)
Definition _abc_init (cls : class) : class :=
  set_abstractmethods cls (inherited_abstracts cls ∪ own_abstracts cls).

(** [class name(base): <namespace>] *)
Definition class_statement (name : string) (namespace : gmap string method)
    (base : class) : outcome class :=
  obind (__init_subclass__ (Subclass name namespace None base))
        (fun cls => Ret (_abc_init cls)).

(** [cls(...)]: a class whose [__abstractmethods__] is not empty cannot be
    instantiated. *)
Definition instantiate (cls : class) (self : pyobj) : outcome instance :=
  match cls_abstractmethods cls with
  | Some names =>
      if decide (names = ∅)
      then Ret {| ob_type := cls; ob_self := self |}
      else Raise TypeError
  | None => Ret {| ob_type := cls; ob_self := self |}
  end.

(** ** examples/example.py *)

(** [obj.name]; a missing attribute raises. *)
Definition getfield (o : pyobj) (name : string) : outcome attr :=
  match ob_dict o !! name with
  | Some a => Ret a
  | None => Raise AttributeError
  end.

(** [==] and [<=] on the field values (strings and numbers). *)
Definition attr_eq (a b : attr) : value :=
  match a, b with
  | AStr x, AStr y => VBool (String.eqb x y)
  | AInt x, AInt y => VBool (Z.eqb x y)
  | _, _ => VBool false
  end.

Definition attr_le (a b : attr) : outcome value :=
  match a, b with
  | AStr x, AStr y => Ret (VBool (String.leb x y))
  | AInt x, AInt y => Ret (VBool (Z.leb x y))
  | _, _ => Raise TypeError
  end.

(** [Person.__eq__]: [return self.name == other.name] *)
Definition Person__eq__ (self other : pyobj) : outcome value :=
  obind (getfield self "name") (fun a =>
  obind (getfield other "name") (fun b =>
  Ret (attr_eq a b))).

(** [Student.__le__]: [return self.average <= other.average] *)
Definition Student__le__ (self other : pyobj) : outcome value :=
  obind (getfield self "average") (fun a =>
  obind (getfield other "average") (fun b =>
  attr_le a b)).

(** The comparison methods of the two class bodies. *)
Definition Person_namespace : gmap string method :=
  {[ "__eq__" := PyFunc false Person__eq__ ]}.

Definition Student_namespace : gmap string method :=
  {[ "__le__" := PyFunc false Student__le__ ]}.

Definition Person : outcome class :=
  class_statement "Person" Person_namespace Sortable.

Definition Student : outcome class :=
  obind Person (fun person =>
  class_statement "Student" Student_namespace person).

(** [Student(name, average)], the new object getting identity [addr]. *)
Definition new_Student (addr : N) (name : string) (average : Z)
  : outcome instance :=
  obind Student (fun cls =>
  instantiate cls
    {| ob_id := addr;
       ob_dict := {[ "name" := AStr name; "average" := AInt average ]} |}).

(** [Person(name)] *)
Definition new_Person (addr : N) (name : string) : outcome instance :=
  obind Person (fun cls =>
  instantiate cls {| ob_id := addr; ob_dict := {[ "name" := AStr name ]} |}).

(** Evaluating [v op w] for operands that are themselves results of
    constructor calls. *)
Definition compare_new (depth : nat) (op : cmpop)
    (v w : outcome instance) : M value :=
  do a <- lift v in do b <- lift w in py_compare depth op a b.

(** ** The specification's vocabulary *)

(** The fixed precedence LT > LE > GT > GE, and the root it selects among
    the relations a type supplies. *)
Definition precedence : list string :=
  ["__lt__"; "__le__"; "__gt__"; "__ge__"].

Definition highest_precedence (supplied : string -> bool) : option string :=
  List.find supplied precedence.

Definition relations : list string :=
  ["__eq__"; "__ne__"; "__lt__"; "__le__"; "__gt__"; "__ge__"].

(** The table entry for deriving [target] from [root]. *)
Definition conversion (root target : string) : option derived :=
  match getitem _compare_conversions root with
  | Some convs => getitem convs target
  | None => None
  end.

(** What registration leaves under [name], in the specification's terms:
    a relation that is concrete stays; a missing [NE] or [EQ] becomes the
    negation of the other; a missing ordering relation is taken from the
    row of the root; everything else is untouched. *)
Definition registered_attr (cls : class) (name : string) : option method :=
  if is_concrete cls name then getattr cls name
  else if String.eqb name "__ne__" then Some (Synth ne_from_eq)
  else if String.eqb name "__eq__" then Some (Synth eq_from_ne)
  else match highest_precedence (is_concrete cls) with
       | Some root =>
           match conversion root name with
           | Some d => Some (Synth d)
           | None => getattr cls name
           end
       | None => getattr cls name
       end.

(** The identities of the specification, section 4.2, for a root that
    answered [r]; [EQ] and [NE] stand for the evaluation of [a == b] and
    [a != b], which "or" and "and" only reach when [r] does not decide. *)
Definition spec_or (x : bool) (y : M value) : M value :=
  if x then ret (VBool true) else y.

Definition spec_and (x : bool) (y : M value) : M value :=
  if x then y else ret (VBool false).

Definition closed_form (root target : cmpop) (r : bool) (EQ NE : M value)
  : option (M value) :=
  match root, target with
  | Py_LT, Py_LE => Some (spec_or r EQ)
  | Py_LT, Py_GT => Some (spec_and (negb r) NE)
  | Py_LT, Py_GE => Some (ret (VBool (negb r)))
  | Py_LE, Py_LT => Some (spec_and r NE)
  | Py_LE, Py_GT => Some (ret (VBool (negb r)))
  | Py_LE, Py_GE => Some (spec_or (negb r) EQ)
  | Py_GT, Py_LT => Some (spec_and (negb r) NE)
  | Py_GT, Py_LE => Some (ret (VBool (negb r)))
  | Py_GT, Py_GE => Some (spec_or r EQ)
  | Py_GE, Py_LT => Some (ret (VBool (negb r)))
  | Py_GE, Py_LE => Some (spec_or (negb r) EQ)
  | Py_GE, Py_GT => Some (spec_and r NE)
  | _, _ => None
  end.

(** A class's [__abstractmethods__] lists every name whose value, seen
    from the class, is abstract. *)
Definition abstracts_recorded (cls : class) : Prop :=
  exists names,
    cls_abstractmethods cls = Some names /\
    forall name, is_abstract cls name = true -> name ∈ names.

(** ** Further classes, used as test inputs *)

(** The class a successful definition or registration produced. *)
Definition the (o : outcome class) : class :=
  match o with
  | Ret cls => cls
  | Raise _ => Sortable
  end.

(** The object [Student(name, average)] evaluates to. *)
Definition student (addr : N) (name : string) (average : Z) : instance :=
  {| ob_type := the Student;
     ob_self := {| ob_id := addr;
                   ob_dict := {[ "name" := AStr name;
                                 "average" := AInt average ]} |} |}.

(** A class whose author wrote [__eq__], [__lt__] and [__ge__], as the hook
    receives it. *)
Definition lt_ge_only : class :=
  Subclass "T"
    {[ "__eq__" := PyFunc false (fun a b => Ret (VBool (N.eqb (ob_id a) (ob_id b))));
       "__lt__" := PyFunc false (fun a b => Ret (VBool (N.ltb (ob_id a) (ob_id b))));
       "__ge__" := PyFunc false (fun a b => Ret (VBool true)) ]}
    None Sortable.

(** A class whose [__lt__] declines every pair. *)
Definition lt_declines : class :=
  the (class_statement "V"
         {[ "__eq__" := PyFunc false (fun a b => Ret (VBool (N.eqb (ob_id a) (ob_id b))));
            "__lt__" := PyFunc false (fun _ _ => Ret NotImplemented) ]}
         Sortable).

(** A class that only writes [__ne__]. *)
Definition ne_only : class :=
  the (class_statement "W"
         {[ "__ne__" := PyFunc false
              (fun a b => Ret (VBool (negb (N.eqb (ob_id a) (ob_id b))))) ]}
         Sortable).

(** [class Reversed(Student)] with its own [__le__]:
    [return self.average >= other.average]. *)
Definition Reversed__le__ (self other : pyobj) : outcome value :=
  obind (getfield self "average") (fun a =>
  obind (getfield other "average") (fun b =>
  attr_le b a)).

Definition Reversed_namespace : gmap string method :=
  {[ "__le__" := PyFunc false Reversed__le__ ]}.

Definition Reversed : class :=
  the (class_statement "Reversed" Reversed_namespace (the Student)).

Definition reversed (addr : N) (name : string) (average : Z) : instance :=
  {| ob_type := Reversed;
     ob_self := {| ob_id := addr;
                   ob_dict := {[ "name" := AStr name;
                                 "average" := AInt average ]} |} |}.

(** [class ByName(Student)] with its own [__lt__], ordering by name:
    [return self.name < other.name]. *)
Definition ByName__lt__ (self other : pyobj) : outcome value :=
  obind (getfield self "name") (fun a =>
  obind (getfield other "name") (fun b =>
  match a, b with
  | AStr x, AStr y => Ret (VBool (String.ltb x y))
  | AInt x, AInt y => Ret (VBool (Z.ltb x y))
  | _, _ => Raise TypeError
  end)).

(** The class object the hook receives for [ByName]. *)
Definition ByName_unregistered : class :=
  Subclass "ByName" {[ "__lt__" := PyFunc false ByName__lt__ ]} None
    (the Student).

(** ** Auxiliary definitions *)

(** Lines 50-62 and lines 68-77 on their own, to reason about them one
    after the other. *)
Definition resolve_equality (cls : class) : outcome class :=
  let has_eq := is_concrete cls "__eq__" in
  let has_ne := is_concrete cls "__ne__" in
  if negb (has_eq || has_ne) then Raise TypeError else
  let cls := if negb has_ne then setattr cls "__ne__" (Synth ne_from_eq)
             else cls in
  let cls := if negb has_eq then setattr cls "__eq__" (Synth eq_from_ne)
             else cls in
  Ret cls.

Definition resolve_ordering (cls : class) : outcome class :=
  if existsb (is_concrete cls) _compare_ops then
    let concrete := concrete_ops cls in
    match py_max concrete with
    | None => Raise ValueError
    | Some root =>
        match getitem _compare_conversions root with
        | None => Raise KeyError
        | Some convs => Ret (install_missing concrete convs cls)
        end
    end
  else Ret cls.

(** The hook keeps the class's name and base. *)
Definition same_base (c1 c2 : class) : Prop :=
  match c1, c2 with
  | Sortable, Sortable => True
  | Subclass n1 _ _ b1, Subclass n2 _ _ b2 => n1 = n2 /\ b1 = b2
  | _, _ => False
  end.

(** ** examples/example.py, lines 55-61: [print_method_types] *)

(** What the function is handed: a class, or some other object, of which
    only its [__abstractmethods__] attribute (if it has one) matters. *)
Inductive argument :=
| AClass (cls : class)
| NotAClass (abstractmethods : option (gset string)).

(** [getattr(cls, '__abstractmethods__', set())] *)
Definition abstractmethods_or_empty (arg : argument) : gset string :=
  match arg with
  | AClass cls => default ∅ (cls_abstractmethods cls)
  | NotAClass a => default ∅ a
  end.

(** The lines printed.  [order] is the order in which iterating over the
    frozenset [Sortable.__abstractmethods__] yields its elements.  There is
    no [return] after ['Not a class']: the loop runs in either case. *)
Definition print_method_types (order : list string) (arg : argument)
  : list string :=
  (match arg with
   | AClass _ => []
   | NotAClass _ => ["Not a class"]
   end) ++
  map (fun op =>
         let status :=
           if bool_decide (op ∈ abstractmethods_or_empty arg)
           then "Abstract" else "Concrete" in
         String.append op (String.append " " status))
      order.

(** ** More vocabulary *)

(** The class has, for every relation the table derives from [root], the
    table's function. *)
Definition surface_from (C : class) (root : cmpop) : Prop :=
  In (dunder root) precedence /\
  forall target fn,
    conversion (dunder root) (dunder target) = Some fn ->
    getattr C (dunder target) = Some (Synth fn).

Definition orderings : list cmpop := [Py_LT; Py_LE; Py_GT; Py_GE].

(** A class with a method besides the relations. *)
Definition with_describe : class :=
  Subclass "Named"
    {[ "__eq__" := PyFunc false (fun a b => Ret (VBool (N.eqb (ob_id a) (ob_id b))));
       "__gt__" := PyFunc false (fun a b => Ret (VBool (N.ltb (ob_id b) (ob_id a))));
       "describe" := PyFunc false (fun _ _ => Ret VNone) ]}
    None Sortable.

(** A class whose author wrote [__eq__], [__ne__] and [__gt__], all by
    the objects' identities. *)
Definition Ranked_namespace : gmap string method :=
  {[ "__eq__" := PyFunc false (fun a b => Ret (VBool (N.eqb (ob_id a) (ob_id b))));
     "__ne__" := PyFunc false (fun a b => Ret (VBool (negb (N.eqb (ob_id a) (ob_id b)))));
     "__gt__" := PyFunc false (fun a b => Ret (VBool (N.ltb (ob_id b) (ob_id a)))) ]}.

Definition Ranked : class :=
  the (class_statement "Ranked" Ranked_namespace Sortable).

Definition ranked (addr : N) : instance :=
  {| ob_type := Ranked; ob_self := {| ob_id := addr; ob_dict := ∅ |} |}.

(** A class whose [__eq__] and [__ne__] decline every pair. *)
Definition Aloof_namespace : gmap string method :=
  {[ "__eq__" := PyFunc false (fun _ _ => Ret NotImplemented);
     "__ne__" := PyFunc false (fun _ _ => Ret NotImplemented);
     "__le__" := PyFunc false (fun a b => Ret (VBool (N.leb (ob_id a) (ob_id b)))) ]}.

Definition Aloof : class :=
  the (class_statement "Aloof" Aloof_namespace Sortable).

Definition aloof (addr : N) : instance :=
  {| ob_type := Aloof; ob_self := {| ob_id := addr; ob_dict := ∅ |} |}.

(** A class that has [__eq__] and rules the orderings out:
    [__lt__ = __le__ = __gt__ = __ge__ = None]. *)
Definition Unordered_namespace : gmap string method :=
  {[ "__eq__" := PyFunc false (fun a b => Ret (VBool (N.eqb (ob_id a) (ob_id b))));
     "__lt__" := PyNone; "__le__" := PyNone;
     "__gt__" := PyNone; "__ge__" := PyNone ]}.

Definition Unordered : class :=
  the (class_statement "Unordered" Unordered_namespace Sortable).

Definition unordered (addr : N) : instance :=
  {| ob_type := Unordered; ob_self := {| ob_id := addr; ob_dict := ∅ |} |}.

(** A class with [__eq__], [__lt__] and an abstract method of its own:
    [@abstractmethod def describe(self, other): pass]. *)
Definition Described_namespace : gmap string method :=
  {[ "__eq__" := PyFunc false (fun a b => Ret (VBool (N.eqb (ob_id a) (ob_id b))));
     "__lt__" := PyFunc false (fun a b => Ret (VBool (N.ltb (ob_id a) (ob_id b))));
     "describe" := PyFunc true (fun _ _ => Ret VNone) ]}.

Definition Described : class :=
  the (class_statement "Described" Described_namespace Sortable).

(** * Properties *)

(** Closed goals about concrete classes and objects are settled by running
    the model. *)
Ltac by_evaluation := vm_compute; reflexivity.

(** ** The monad *)

Lemma result_bind {A B} (c : M A) (k : A -> M B) :
  result (bind c k) =
  match result c with
  | Ret a => result (k a)
  | Raise e => Raise e
  end.
Proof.
  destruct c as [t [a|e]]; simpl; [|reflexivity].
  destruct (k a); reflexivity.
Qed.

Lemma trace_bind {A B} (c : M A) (k : A -> M B) :
  trace (bind c k) =
  match result c with
  | Ret a => trace c ++ trace (k a)
  | Raise e => trace c
  end.
Proof.
  destruct c as [t [a|e]]; simpl; [|reflexivity].
  destruct (k a); reflexivity.
Qed.

Lemma M_eta {A} (c : M A) : c = (trace c, result c).
Proof. destruct c; reflexivity. Qed.

(** ** Attribute lookup and update *)

Lemma getattr_setattr cls name fn name' :
  cls <> Sortable ->
  getattr (setattr cls name fn) name' =
  if decide (name = name') then Some fn else getattr cls name'.
Proof.
  destruct cls as [|n d a b]; [congruence|]. intros _. simpl.
  rewrite lookup_insert. case_decide; reflexivity.
Qed.

Lemma setattr_not_Sortable cls name fn :
  cls <> Sortable -> setattr cls name fn <> Sortable.
Proof. destruct cls; [congruence|discriminate]. Qed.

Lemma is_concrete_setattr cls name d name' :
  cls <> Sortable ->
  is_concrete (setattr cls name (Synth d)) name' =
  if decide (name = name') then true else is_concrete cls name'.
Proof.
  intros H. unfold is_concrete. rewrite getattr_setattr by assumption.
  case_decide; reflexivity.
Qed.

Lemma getattr_set_abstractmethods cls names name :
  getattr (set_abstractmethods cls names) name = getattr cls name.
Proof. destruct cls; reflexivity. Qed.

Lemma getattr_update_abstractmethods cls name :
  getattr (update_abstractmethods cls) name = getattr cls name.
Proof.
  unfold update_abstractmethods.
  destruct (cls_abstractmethods cls); [apply getattr_set_abstractmethods|reflexivity].
Qed.

Lemma getattr__abc_init cls name :
  getattr (_abc_init cls) name = getattr cls name.
Proof. apply getattr_set_abstractmethods. Qed.

Lemma is_concrete_ext cls cls' :
  (forall name, getattr cls' name = getattr cls name) ->
  forall name, is_concrete cls' name = is_concrete cls name.
Proof. intros H name. unfold is_concrete. rewrite H. reflexivity. Qed.

(** ** The conversion table *)

Lemma getitem_absent {V} (d : list (string * V)) key :
  ~ In key (map fst d) -> getitem d key = None.
Proof.
  induction d as [|[k v] rest IH]; simpl; [reflexivity|].
  intros H. destruct (String.eqb_spec k key) as [->|_].
  - exfalso. apply H. left. reflexivity.
  - apply IH. intros Hin. apply H. right. exact Hin.
Qed.

Lemma getitem_present {V} (d : list (string * V)) key :
  In key (map fst d) -> exists v, getitem d key = Some v.
Proof.
  induction d as [|[k v] rest IH]; simpl; [contradiction|].
  intros H. destruct (String.eqb_spec k key) as [->|Hne]; [eauto|].
  destruct H as [H|H]; [congruence|]. apply IH, H.
Qed.

Lemma install_missing_not_Sortable concrete convs :
  forall cls, cls <> Sortable -> install_missing concrete convs cls <> Sortable.
Proof.
  unfold install_missing.
  induction convs as [|[k v] rest IH]; simpl; intros cls H; [exact H|].
  apply IH. destruct (negb (name_in k concrete)); [|exact H].
  apply setattr_not_Sortable, H.
Qed.

Lemma install_missing_getattr concrete convs :
  forall cls name,
    cls <> Sortable ->
    List.NoDup (map fst convs) ->
    getattr (install_missing concrete convs cls) name =
    match getitem convs name with
    | Some d => if name_in name concrete then getattr cls name
                else Some (Synth d)
    | None => getattr cls name
    end.
Proof.
  unfold install_missing.
  induction convs as [|[k v] rest IH]; simpl; intros cls name Hcls Hnd;
    [reflexivity|].
  inversion Hnd as [|? ? Hk Hrest]; subst.
  rewrite IH; [|destruct (negb (name_in k concrete));
                 [apply setattr_not_Sortable|]; exact Hcls|exact Hrest].
  destruct (String.eqb_spec k name) as [->|Hne].
  - rewrite (getitem_absent rest name Hk).
    destruct (name_in name concrete); simpl; [reflexivity|].
    rewrite getattr_setattr by exact Hcls. case_decide; congruence.
  - assert (Hstep : getattr (if negb (name_in k concrete)
                             then setattr cls k (Synth v) else cls) name
                    = getattr cls name).
    { destruct (negb (name_in k concrete)); [|reflexivity].
      rewrite getattr_setattr by exact Hcls. case_decide; congruence. }
    rewrite Hstep. reflexivity.
Qed.

Lemma install_missing_all_concrete concrete convs cls :
  (forall k, In k (map fst convs) -> name_in k concrete = true) ->
  install_missing concrete convs cls = cls.
Proof.
  unfold install_missing. revert cls.
  induction convs as [|[k v] rest IH]; simpl; intros cls H; [reflexivity|].
  rewrite (H k) by (left; reflexivity). simpl.
  apply IH. intros k' Hk'. apply H. right. exact Hk'.
Qed.

(** ** Root selection *)

Lemma concrete_ops_filter cls :
  concrete_ops cls =
  List.filter (is_concrete cls) ["__lt__"; "__ge__"; "__le__"; "__gt__"].
Proof.
  unfold concrete_ops. simpl map.
  apply List.filter_ext. intros op. unfold is_concrete.
  destruct (getattr cls op) as [[| |]|]; reflexivity.
Qed.

Lemma root_of_precedence cls :
  root_of cls = highest_precedence (is_concrete cls).
Proof.
  unfold root_of, highest_precedence, precedence.
  rewrite concrete_ops_filter. simpl.
  destruct (is_concrete cls "__lt__"), (is_concrete cls "__ge__"),
    (is_concrete cls "__le__"), (is_concrete cls "__gt__"); reflexivity.
Qed.

(** ** The equality half and the ordering half *)

Lemma init_subclass_halves cls :
  __init_subclass__ cls =
  obind (resolve_equality cls) (fun c =>
  obind (resolve_ordering c) (fun c => Ret (update_abstractmethods c))).
Proof.
  unfold __init_subclass__, resolve_equality, resolve_ordering.
  destruct (negb (is_concrete cls "__eq__" || is_concrete cls "__ne__"));
    reflexivity.
Qed.

Lemma Sortable_not_concrete name : is_concrete Sortable name = false.
Proof.
  unfold is_concrete. simpl.
  destruct (Sortable_dict !! name) as [fn|] eqn:E; [|reflexivity].
  unfold Sortable_dict in E. simpl in E.
  repeat (rewrite lookup_insert in E; case_decide;
          [injection E as <-; reflexivity|]).
  rewrite lookup_empty in E. discriminate.
Qed.

Lemma resolve_equality_raises cls :
  is_concrete cls "__eq__" = false -> is_concrete cls "__ne__" = false ->
  resolve_equality cls = Raise TypeError.
Proof. intros He Hn. unfold resolve_equality. rewrite He, Hn. reflexivity. Qed.

Lemma resolve_equality_spec cls :
  is_concrete cls "__eq__" || is_concrete cls "__ne__" = true ->
  exists c, resolve_equality cls = Ret c /\ c <> Sortable /\
    forall name,
      getattr c name =
      if is_concrete cls name then getattr cls name
      else if String.eqb name "__ne__" then Some (Synth ne_from_eq)
      else if String.eqb name "__eq__" then Some (Synth eq_from_ne)
      else getattr cls name.
Proof.
  intros H.
  assert (Hcls : cls <> Sortable).
  { intros ->. rewrite !Sortable_not_concrete in H. discriminate. }
  unfold resolve_equality.
  destruct (is_concrete cls "__eq__") eqn:He,
           (is_concrete cls "__ne__") eqn:Hn; try discriminate; simpl;
    eexists; (split; [reflexivity|]); (split; [try apply setattr_not_Sortable; exact Hcls|]);
    intros name.
  - destruct (is_concrete cls name) eqn:Hc; [reflexivity|].
    destruct (String.eqb_spec name "__ne__") as [->|_]; [congruence|].
    destruct (String.eqb_spec name "__eq__") as [->|_]; [congruence|].
    reflexivity.
  - rewrite getattr_setattr by exact Hcls. case_decide as Hd.
    + subst name. rewrite Hn. reflexivity.
    + destruct (is_concrete cls name) eqn:Hc; [reflexivity|].
      destruct (String.eqb_spec name "__ne__") as [->|_]; [congruence|].
      destruct (String.eqb_spec name "__eq__") as [->|_]; [congruence|].
      reflexivity.
  - rewrite getattr_setattr by exact Hcls. case_decide as Hd.
    + subst name. rewrite He. reflexivity.
    + destruct (is_concrete cls name) eqn:Hc; [reflexivity|].
      destruct (String.eqb_spec name "__ne__") as [->|_]; [congruence|].
      destruct (String.eqb_spec name "__eq__") as [->|_]; [congruence|].
      reflexivity.
Qed.

Lemma name_in_filter name (f : string -> bool) l :
  name_in name (List.filter f l) = name_in name l && f name.
Proof.
  unfold name_in. induction l as [|x l IH]; simpl; [reflexivity|].
  destruct (f x) eqn:Hx; simpl; rewrite IH.
  - destruct (String.eqb_spec name x) as [->|_]; simpl; [|reflexivity].
    rewrite Hx. reflexivity.
  - destruct (String.eqb_spec name x) as [->|_]; simpl; [|reflexivity].
    rewrite Hx. rewrite andb_false_r. reflexivity.
Qed.

Lemma highest_precedence_some f :
  existsb f _compare_ops = true ->
  exists root, highest_precedence f = Some root /\ f root = true /\
               In root precedence.
Proof.
  unfold highest_precedence, precedence, _compare_ops. simpl.
  destruct (f "__lt__") eqn:H1; [eexists; repeat split; simpl; eauto|].
  destruct (f "__le__") eqn:H2; [eexists; repeat split; simpl; eauto|].
  destruct (f "__gt__") eqn:H3; [eexists; repeat split; simpl; eauto|].
  destruct (f "__ge__") eqn:H4; [eexists; repeat split; simpl; eauto 6|].
  discriminate.
Qed.

Lemma highest_precedence_none f :
  existsb f _compare_ops = false -> highest_precedence f = None.
Proof.
  unfold highest_precedence, precedence, _compare_ops. simpl.
  destruct (f "__lt__"), (f "__le__"), (f "__gt__"), (f "__ge__");
    try discriminate; reflexivity.
Qed.

(** Every row of the table has three distinct keys, all of them ordering
    relations. *)
Lemma conversions_row root :
  In root precedence ->
  exists convs,
    getitem _compare_conversions root = Some convs /\
    List.NoDup (map fst convs) /\
    forall name d, getitem convs name = Some d ->
                   name_in name ["__lt__"; "__ge__"; "__le__"; "__gt__"] = true.
Proof.
  unfold precedence. simpl.
  intros [<-|[<-|[<-|[<-|[]]]]]; eexists; (split; [reflexivity|]);
    (split; [repeat (apply List.NoDup_cons; [simpl; intuition discriminate|]);
             apply List.NoDup_nil|]);
    intros name d; cbn [getitem];
    repeat match goal with
           | |- context [String.eqb ?k name] =>
               destruct (String.eqb_spec k name) as [<-|_];
               [intros _; reflexivity|]
           end;
    discriminate.
Qed.

Lemma resolve_ordering_spec c :
  c <> Sortable ->
  exists c2, resolve_ordering c = Ret c2 /\ c2 <> Sortable /\
    forall name,
      getattr c2 name =
      if is_concrete c name then getattr c name
      else match highest_precedence (is_concrete c) with
           | Some root =>
               match conversion root name with
               | Some d => Some (Synth d)
               | None => getattr c name
               end
           | None => getattr c name
           end.
Proof.
  intros Hc. unfold resolve_ordering.
  destruct (existsb (is_concrete c) _compare_ops) eqn:Hex.
  - destruct (highest_precedence_some _ Hex) as (root & Hroot & _ & Hin).
    fold (root_of c). rewrite root_of_precedence, Hroot.
    destruct (conversions_row root Hin) as (convs & Hrow & Hnd & Hkeys).
    rewrite Hrow. eexists. split; [reflexivity|].
    split; [apply install_missing_not_Sortable, Hc|].
    intros name. rewrite install_missing_getattr by assumption.
    unfold conversion. rewrite Hrow.
    destruct (getitem convs name) as [d|] eqn:Hd.
    + rewrite concrete_ops_filter, name_in_filter, (Hkeys _ _ Hd). simpl.
      destruct (is_concrete c name); reflexivity.
    + destruct (is_concrete c name); reflexivity.
  - eexists. split; [reflexivity|]. split; [exact Hc|].
    intros name. rewrite (highest_precedence_none _ Hex).
    destruct (is_concrete c name); reflexivity.
Qed.

Lemma highest_precedence_ext f g :
  (forall op, In op precedence -> f op = g op) ->
  highest_precedence f = highest_precedence g.
Proof.
  intros H. unfold highest_precedence, precedence in *. simpl.
  rewrite !H by (simpl; auto 6). reflexivity.
Qed.

Lemma update_abstractmethods_not_Sortable cls :
  cls <> Sortable -> update_abstractmethods cls <> Sortable.
Proof.
  destruct cls as [|n d [a|] b]; [congruence| |]; intros _; discriminate.
Qed.

(** ** What the hook does to a class *)

Lemma init_subclass_raises cls :
  is_concrete cls "__eq__" = false -> is_concrete cls "__ne__" = false ->
  __init_subclass__ cls = Raise TypeError.
Proof.
  intros He Hn. rewrite init_subclass_halves.
  rewrite resolve_equality_raises by assumption. reflexivity.
Qed.

Lemma init_subclass_spec cls :
  is_concrete cls "__eq__" || is_concrete cls "__ne__" = true ->
  exists cls', __init_subclass__ cls = Ret cls' /\ cls' <> Sortable /\
    forall name, getattr cls' name = registered_attr cls name.
Proof.
  intros H. rewrite init_subclass_halves.
  destruct (resolve_equality_spec cls H) as (c & -> & Hc & Hget). simpl.
  destruct (resolve_ordering_spec c Hc) as (c2 & -> & Hc2 & Hget2). simpl.
  eexists. split; [reflexivity|].
  split; [apply update_abstractmethods_not_Sortable, Hc2|].
  intros name. rewrite getattr_update_abstractmethods, Hget2.
  assert (Hhp : highest_precedence (is_concrete c)
                = highest_precedence (is_concrete cls)).
  { apply highest_precedence_ext. intros op Hop. unfold is_concrete at 1.
    rewrite Hget.
    destruct (is_concrete cls op) eqn:E; [exact E|].
    unfold precedence in Hop. simpl in Hop.
    destruct Hop as [<-|[<-|[<-|[<-|[]]]]]; simpl; exact E. }
  rewrite Hhp. unfold registered_attr, is_concrete at 1. rewrite Hget.
  fold (is_concrete cls name).
  destruct (is_concrete cls name) eqn:E.
  - unfold is_concrete in E. destruct (getattr cls name) as [fn|]; [|discriminate].
    rewrite E. reflexivity.
  - destruct (String.eqb name "__ne__"); [reflexivity|].
    destruct (String.eqb name "__eq__"); [reflexivity|].
    unfold is_concrete in E. destruct (getattr cls name) as [fn|].
    + rewrite E. reflexivity.
    + reflexivity.
Qed.

Lemma init_subclass_total cls :
  __init_subclass__ cls = Raise TypeError \/
  exists cls', __init_subclass__ cls = Ret cls'.
Proof.
  destruct (is_concrete cls "__eq__" || is_concrete cls "__ne__") eqn:H.
  - right. destruct (init_subclass_spec cls H) as (cls' & E & _). eauto.
  - left. apply orb_false_iff in H as [He Hn].
    apply init_subclass_raises; assumption.
Qed.

Lemma init_subclass_inv cls cls' :
  __init_subclass__ cls = Ret cls' ->
  is_concrete cls "__eq__" || is_concrete cls "__ne__" = true /\
  cls <> Sortable /\ cls' <> Sortable /\
  forall name, getattr cls' name = registered_attr cls name.
Proof.
  intros E.
  destruct (is_concrete cls "__eq__" || is_concrete cls "__ne__") eqn:H.
  - destruct (init_subclass_spec cls H) as (c & E' & Hc & Hget).
    rewrite E in E'. injection E' as <-.
    repeat split; try assumption.
    intros ->. rewrite !Sortable_not_concrete in H. discriminate.
  - apply orb_false_iff in H as [He Hn].
    rewrite init_subclass_raises in E by assumption. discriminate.
Qed.

Lemma class_statement_inv name namespace base C :
  class_statement name namespace base = Ret C ->
  exists cls',
    __init_subclass__ (Subclass name namespace None base) = Ret cls' /\
    C = _abc_init cls'.
Proof.
  unfold class_statement.
  destruct (__init_subclass__ _) as [cls'|e]; simpl; [|discriminate].
  intros [= <-]. eauto.
Qed.

Lemma class_statement_getattr name namespace base C :
  class_statement name namespace base = Ret C ->
  forall attr_name,
    getattr C attr_name =
    registered_attr (Subclass name namespace None base) attr_name.
Proof.
  intros H attr_name.
  destruct (class_statement_inv _ _ _ _ H) as (cls' & Hreg & ->).
  rewrite getattr__abc_init.
  apply (init_subclass_inv _ _ Hreg).
Qed.

Lemma highest_precedence_found f root :
  highest_precedence f = Some root -> f root = true /\ In root precedence.
Proof.
  unfold highest_precedence. intros H.
  apply List.find_some in H as [Hin Hf]. split; assumption.
Qed.

Lemma conversion_defined root target :
  In root precedence -> In target precedence -> root <> target ->
  exists d, conversion root target = Some d.
Proof.
  unfold precedence. simpl.
  intros [<-|[<-|[<-|[<-|[]]]]] [<-|[<-|[<-|[<-|[]]]]] Hne;
    try congruence; eexists; reflexivity.
Qed.

Lemma conversion_only_orderings root target d :
  conversion root target = Some d -> In target precedence.
Proof.
  unfold conversion.
  destruct (getitem _compare_conversions root) as [convs|] eqn:Hrow;
    [|discriminate].
  intros Hd. revert Hrow. cbn [getitem _compare_conversions].
  repeat match goal with
         | |- context [String.eqb ?k root] =>
             destruct (String.eqb_spec k root) as [<-|_]
         end; intros [= <-]; revert Hd; cbn [getitem];
    repeat match goal with
           | |- context [String.eqb ?k target] =>
               destruct (String.eqb_spec k target) as [<-|_];
               [intros _; unfold precedence; simpl; auto 6|]
           end; discriminate.
Qed.

(** After registration every ordering relation is concrete exactly when
    the type supplied one of them; [EQ] and [NE] always are. *)
Lemma registered_ordering_concrete cls cls' op :
  __init_subclass__ cls = Ret cls' ->
  In op precedence ->
  is_concrete cls' op = existsb (is_concrete cls) _compare_ops.
Proof.
  intros Hreg Hop.
  destruct (init_subclass_inv _ _ Hreg) as (_ & _ & _ & Hget).
  unfold is_concrete at 1. rewrite Hget. unfold registered_attr.
  destruct (is_concrete cls op) eqn:E.
  - fold (is_concrete cls op). rewrite E. symmetry.
    apply existsb_exists. exists op. split; [exact Hop|exact E].
  - assert (Hne : String.eqb op "__ne__" = false /\
                  String.eqb op "__eq__" = false).
    { unfold precedence in Hop. simpl in Hop.
      destruct Hop as [<-|[<-|[<-|[<-|[]]]]]; split; reflexivity. }
    destruct Hne as [-> ->].
    destruct (existsb (is_concrete cls) _compare_ops) eqn:Hex.
    + destruct (highest_precedence_some _ Hex) as (root & -> & Hroot & Hin).
      destruct (conversion_defined root op Hin Hop) as (d & ->);
        [congruence|reflexivity].
    + rewrite (highest_precedence_none _ Hex).
      fold (is_concrete cls op). exact E.
Qed.

Lemma registered_equality_concrete cls cls' :
  __init_subclass__ cls = Ret cls' ->
  is_concrete cls' "__eq__" = true /\ is_concrete cls' "__ne__" = true.
Proof.
  intros Hreg.
  destruct (init_subclass_inv _ _ Hreg) as (_ & _ & _ & Hget).
  unfold is_concrete. rewrite !Hget. unfold registered_attr.
  split.
  - destruct (is_concrete cls "__eq__") eqn:E; [exact E|reflexivity].
  - destruct (is_concrete cls "__ne__") eqn:E; [exact E|reflexivity].
Qed.

Lemma installed_from_root_row cls cls' root :
  __init_subclass__ cls = Ret cls' ->
  highest_precedence (is_concrete cls) = Some root ->
  forall target, In target _compare_ops -> is_concrete cls target = false ->
    exists d, conversion root target = Some d /\
              getattr cls' target = Some (Synth d).
Proof.
  intros Hreg Hroot target Htarget Hnot.
  destruct (init_subclass_inv _ _ Hreg) as (_ & _ & _ & Hget).
  destruct (highest_precedence_found _ _ Hroot) as [Hconc Hin].
  destruct (conversion_defined root target Hin Htarget) as (d & Hd);
    [congruence|].
  exists d. split; [exact Hd|].
  rewrite Hget. unfold registered_attr. rewrite Hnot, Hroot, Hd.
  unfold _compare_ops in Htarget. simpl in Htarget.
  destruct Htarget as [<-|[<-|[<-|[<-|[]]]]]; reflexivity.
Qed.

(** ** Registering again *)

Lemma update_abstractmethods_idem cls :
  update_abstractmethods (update_abstractmethods cls)
  = update_abstractmethods cls.
Proof. destruct cls as [|n d [a|] b]; reflexivity. Qed.

Lemma resolve_equality_registered cls :
  is_concrete cls "__eq__" = true -> is_concrete cls "__ne__" = true ->
  resolve_equality cls = Ret cls.
Proof. intros He Hn. unfold resolve_equality. rewrite He, Hn. reflexivity. Qed.

Lemma resolve_ordering_registered cls :
  (forall op, In op precedence ->
              is_concrete cls op = existsb (is_concrete cls) _compare_ops) ->
  resolve_ordering cls = Ret cls.
Proof.
  intros Hall. unfold resolve_ordering.
  destruct (existsb (is_concrete cls) _compare_ops) eqn:Hex; [|reflexivity].
  destruct (highest_precedence_some _ Hex) as (root & Hroot & _ & Hin).
  fold (root_of cls). rewrite root_of_precedence, Hroot.
  destruct (conversions_row root Hin) as (convs & -> & _ & Hkeys).
  rewrite install_missing_all_concrete; [reflexivity|].
  intros k Hk. rewrite concrete_ops_filter, name_in_filter.
  assert (Hd : exists d, getitem convs k = Some d).
  { clear -Hk. induction convs as [|[k' v] rest IH]; simpl in *; [contradiction|].
    destruct (String.eqb_spec k' k) as [->|Hne]; [eauto|].
    destruct Hk as [Hk|Hk]; [congruence|]. apply IH, Hk. }
  destruct Hd as (d & Hd).
  pose proof (Hkeys _ _ Hd) as Hin4. rewrite Hin4. simpl.
  apply Hall.
  unfold name_in in Hin4. simpl in Hin4. unfold precedence. simpl.
  repeat match type of Hin4 with
         | context [String.eqb k ?s] =>
             destruct (String.eqb_spec k s) as [->|_]; [auto 6|]
         end.
  discriminate.
Qed.

Lemma existsb_ext_in_ops (f g : string -> bool) :
  (forall name, f name = g name) ->
  existsb f _compare_ops = existsb g _compare_ops.
Proof. intros H. unfold _compare_ops. simpl. rewrite !H. reflexivity. Qed.

(** On a class that registration has completed, the hook only redoes the
    abstractness bookkeeping. *)
Lemma init_subclass_registered cls :
  is_concrete cls "__eq__" = true -> is_concrete cls "__ne__" = true ->
  (forall op, In op precedence ->
              is_concrete cls op = existsb (is_concrete cls) _compare_ops) ->
  __init_subclass__ cls = Ret (update_abstractmethods cls).
Proof.
  intros He Hn Hord. rewrite init_subclass_halves.
  rewrite (resolve_equality_registered cls He Hn). cbn [obind].
  rewrite (resolve_ordering_registered cls Hord). reflexivity.
Qed.

(** ** Abstractness bookkeeping *)

Lemma is_concrete_not_abstract cls name :
  is_concrete cls name = true -> is_abstract cls name = false.
Proof.
  unfold is_concrete, is_abstract.
  destruct (getattr cls name) as [[[]| |]|]; simpl; congruence.
Qed.

(** Only names whose value is abstract are recorded. *)
Lemma abstracts_sound cls name :
  name ∈ inherited_abstracts cls ∪ own_abstracts cls ->
  is_abstract cls name = true.
Proof.
  intros [Hin|Hin]%elem_of_union.
  - destruct cls as [|n d a b]; simpl in Hin; [set_solver|].
    destruct (cls_abstractmethods b); [|set_solver].
    apply elem_of_filter in Hin as [H _]. exact H.
  - unfold own_abstracts in Hin.
    apply elem_of_dom in Hin as [fn Hfn].
    apply map_lookup_filter_Some in Hfn as [Hfn Habs]. simpl in Habs.
    unfold is_abstract.
    destruct cls as [|n d a b]; simpl in *; rewrite Hfn; exact Habs.
Qed.

Lemma cls_abstractmethods__abc_init cls :
  cls <> Sortable ->
  cls_abstractmethods (_abc_init cls)
  = Some (inherited_abstracts cls ∪ own_abstracts cls).
Proof. destruct cls; [congruence|reflexivity]. Qed.

Lemma registered_attr_other cls name :
  ~ In name relations -> registered_attr cls name = getattr cls name.
Proof.
  intros Hout. unfold registered_attr.
  destruct (is_concrete cls name); [reflexivity|].
  destruct (String.eqb_spec name "__ne__") as [->|_].
  { exfalso. apply Hout. unfold relations. simpl. auto. }
  destruct (String.eqb_spec name "__eq__") as [->|_].
  { exfalso. apply Hout. unfold relations. simpl. auto. }
  destruct (highest_precedence (is_concrete cls)) as [root|]; [|reflexivity].
  destruct (conversion root name) as [d|] eqn:Hd; [|reflexivity].
  exfalso. apply Hout. apply conversion_only_orderings in Hd.
  unfold precedence in Hd. unfold relations. simpl in *. tauto.
Qed.

Lemma Sortable_dict_names name fn :
  Sortable_dict !! name = Some fn -> In name relations /\ fn = abstract_stub.
Proof.
  unfold Sortable_dict, relations. simpl. intros E.
  repeat (rewrite lookup_insert in E; case_decide;
          [injection E as <-; subst; simpl; auto 10|]).
  rewrite lookup_empty in E. discriminate.
Qed.

Lemma Person_defined :
  class_statement "Person" Person_namespace Sortable = Ret (the Person).
Proof. by_evaluation. Qed.

Lemma Student_defined :
  class_statement "Student" Student_namespace (the Person)
  = Ret (the Student).
Proof. by_evaluation. Qed.

Lemma Student_no_other_abstract other :
  ~ In other relations ->
  is_abstract (Subclass "Student" Student_namespace None (the Person)) other
  = false.
Proof.
  intros Hout. unfold is_abstract. cbn [getattr].
  unfold Student_namespace.
  destruct (decide (other = "__le__")) as [->|Hle].
  { exfalso. apply Hout. unfold relations. simpl. auto 10. }
  rewrite lookup_singleton_ne by congruence.
  rewrite (class_statement_getattr _ _ _ _ Person_defined).
  rewrite registered_attr_other by exact Hout.
  cbn [getattr]. unfold Person_namespace.
  destruct (decide (other = "__eq__")) as [->|Heq].
  { exfalso. apply Hout. unfold relations. simpl. auto 10. }
  rewrite lookup_singleton_ne by congruence.
  destruct (Sortable_dict !! other) as [fn|] eqn:E; [|reflexivity].
  apply Sortable_dict_names in E as [Hin _]. contradiction.
Qed.

(** ** Evaluating the module-level functions *)

Lemma call_Synth depth fn a b :
  call (S depth) (Synth fn) a b = derived_body (call depth) fn a b.
Proof. reflexivity. Qed.

Lemma call_method_found rec a name b fn :
  getattr (ob_type a) name = Some fn ->
  call_method rec a name b =
  (Invoke name (id a) (id b) :: trace (rec fn a b), result (rec fn a b)).
Proof.
  intros H. unfold call_method. rewrite H.
  destruct (rec fn a b) as [t o]. reflexivity.
Qed.

Lemma bind_Ret {A B} t (a : A) (k : A -> M B) :
  bind (t, Ret a) k = (t ++ trace (k a), result (k a)).
Proof. simpl. destruct (k a). reflexivity. Qed.

Lemma derived_closed_form root target fn depth a b t r :
  conversion (dunder root) (dunder target) = Some fn ->
  call_method (call depth) a (dunder root) b = (t, Ret (VBool r)) ->
  exists form,
    closed_form root target r
      (py_compare depth Py_EQ a b) (py_compare depth Py_NE a b) = Some form /\
    call (S depth) (Synth fn) a b = (t ++ trace form, result form).
Proof.
  intros Hconv Hroot. rewrite call_Synth.
  destruct root, target; vm_compute in Hconv; try discriminate;
    injection Hconv as <-; cbn [derived_body dunder] in *;
    eexists; (split; [reflexivity|]);
    match goal with
    | |- ?body _ _ _ = _ => unfold body
    end;
    rewrite Hroot, bind_Ret; cbn [is_NotImplemented truthy];
    destruct r; reflexivity.
Qed.

Lemma derived_NotImplemented root target fn depth a b t :
  conversion root target = Some fn ->
  call_method (call depth) a root b = (t, Ret NotImplemented) ->
  call (S depth) (Synth fn) a b = (t, Ret NotImplemented).
Proof.
  intros Hconv Hroot. rewrite call_Synth.
  assert (Hrow : In root precedence).
  { unfold conversion in Hconv. unfold precedence.
    cbn [getitem _compare_conversions] in Hconv. simpl.
    repeat match type of Hconv with
           | context [String.eqb ?k root] =>
               destruct (String.eqb_spec k root) as [<-|_]; [auto 6|]
           end.
    discriminate. }
  pose proof (conversion_only_orderings _ _ _ Hconv) as Htarget.
  unfold precedence in Hrow, Htarget. simpl in Hrow, Htarget.
  destruct Hrow as [<-|[<-|[<-|[<-|[]]]]];
    destruct Htarget as [<-|[<-|[<-|[<-|[]]]]];
    vm_compute in Hconv; try discriminate;
    injection Hconv as <-; cbn [derived_body];
    match goal with
    | |- ?body _ _ _ = _ => unfold body
    end;
    rewrite Hroot, bind_Ret; cbn [is_NotImplemented trace result ret];
    rewrite app_nil_r; reflexivity.
Qed.

Lemma dunder_ordering op :
  In (dunder op) precedence -> op <> Py_EQ /\ op <> Py_NE.
Proof.
  unfold precedence. simpl.
  destruct op; simpl; intros H; split; try discriminate;
    exfalso; intuition discriminate.
Qed.

Lemma Student_instantiable self :
  instantiate (the Student) self
  = Ret {| ob_type := the Student; ob_self := self |}.
Proof.
  unfold instantiate.
  assert (H : cls_abstractmethods (the Student) = Some ∅)
    by (by_evaluation).
  rewrite H. reflexivity.
Qed.

Lemma new_Student_student addr name average :
  new_Student addr name average = Ret (student addr name average).
Proof.
  unfold new_Student.
  assert (H : Student = Ret (the Student)) by (by_evaluation).
  rewrite H. simpl obind. apply Student_instantiable.
Qed.

(** ** The class's own dictionary *)

Lemma cls_dict_setattr cls name fn name' :
  cls <> Sortable -> name <> name' ->
  cls_dict (setattr cls name fn) !! name' = cls_dict cls !! name'.
Proof.
  destruct cls; [congruence|]. intros _ Hne. simpl.
  apply lookup_insert_ne. exact Hne.
Qed.

Lemma cls_dict_update_abstractmethods cls :
  cls_dict (update_abstractmethods cls) = cls_dict cls.
Proof. destruct cls as [|n d [a|] b]; reflexivity. Qed.

Lemma cls_dict__abc_init cls : cls_dict (_abc_init cls) = cls_dict cls.
Proof. destruct cls; reflexivity. Qed.

Lemma install_missing_cls_dict concrete convs name :
  (In name (map fst convs) -> name_in name concrete = true) ->
  forall cls, cls <> Sortable ->
    cls_dict (install_missing concrete convs cls) !! name
    = cls_dict cls !! name.
Proof.
  unfold install_missing.
  induction convs as [|[k v] rest IH]; simpl; intros Hin cls Hcls;
    [reflexivity|].
  destruct (name_in k concrete) eqn:Hk; simpl.
  - apply IH; [tauto|exact Hcls].
  - rewrite IH; [|tauto|apply setattr_not_Sortable, Hcls].
    apply cls_dict_setattr; [exact Hcls|].
    intros ->. rewrite Hin in Hk by tauto. discriminate.
Qed.

Lemma resolve_equality_cls_dict cls c name :
  resolve_equality cls = Ret c ->
  is_concrete cls name = true ->
  cls_dict c !! name = cls_dict cls !! name.
Proof.
  intros Heq Hc.
  assert (Hcls : cls <> Sortable).
  { intros ->. rewrite Sortable_not_concrete in Hc. discriminate. }
  unfold resolve_equality in Heq.
  destruct (negb (is_concrete cls "__eq__" || is_concrete cls "__ne__"));
    [discriminate|].
  injection Heq as <-.
  destruct (is_concrete cls "__ne__") eqn:Hn,
           (is_concrete cls "__eq__") eqn:He; cbn [negb];
    rewrite ?cls_dict_setattr;
    try reflexivity; try exact Hcls;
    try (apply setattr_not_Sortable; exact Hcls);
    intros <-; congruence.
Qed.

Lemma resolve_ordering_cls_dict c c2 name :
  c <> Sortable ->
  resolve_ordering c = Ret c2 ->
  is_concrete c name = true ->
  cls_dict c2 !! name = cls_dict c !! name.
Proof.
  intros Hcne Hord Hcc. unfold resolve_ordering in Hord.
  destruct (existsb (is_concrete c) _compare_ops) eqn:Hex.
  - destruct (highest_precedence_some _ Hex) as (root & Hroot & _ & Hin).
    fold (root_of c) in Hord. rewrite root_of_precedence, Hroot in Hord.
    destruct (conversions_row root Hin) as (convs & Hrow & _ & Hkeys).
    rewrite Hrow in Hord. injection Hord as <-.
    apply install_missing_cls_dict; [|exact Hcne].
    intros Hkey. apply getitem_present in Hkey as (d & Hd).
    rewrite concrete_ops_filter, name_in_filter, (Hkeys _ _ Hd), Hcc.
    reflexivity.
  - injection Hord as <-. reflexivity.
Qed.

(** The hook does not write the dictionary entry of a relation that is
    concrete. *)
Lemma init_subclass_cls_dict cls cls' name :
  __init_subclass__ cls = Ret cls' ->
  is_concrete cls name = true ->
  cls_dict cls' !! name = cls_dict cls !! name.
Proof.
  intros Hreg Hc.
  destruct (init_subclass_inv _ _ Hreg) as (Hen & Hcls & _ & _).
  rewrite init_subclass_halves in Hreg.
  destruct (resolve_equality_spec cls Hen) as (c & Heq & Hcne & Hgetc).
  rewrite Heq in Hreg. cbn [obind] in Hreg.
  destruct (resolve_ordering c) as [c2|] eqn:Hord; [|discriminate].
  cbn [obind] in Hreg. injection Hreg as <-.
  rewrite cls_dict_update_abstractmethods.
  rewrite (resolve_ordering_cls_dict c c2 name Hcne Hord).
  - apply (resolve_equality_cls_dict _ _ _ Heq Hc).
  - unfold is_concrete. rewrite Hgetc, Hc. exact Hc.
Qed.

(** ** The two equality functions *)

(** [_ne__from_eq] asks [self.__ne__], [_eq__from_ne] asks [self.__eq__]:
    on a class where that attribute is the function itself, each call makes
    the same call again, one frame deeper, until no frame is left. *)
Lemma ne_from_eq_exhausts depth a b :
  ob_dict (ob_self a) !! "__ne__" = None ->
  getattr (ob_type a) "__ne__" = Some (Synth ne_from_eq) ->
  result (call depth (Synth ne_from_eq) a b) = Raise RecursionError.
Proof.
  intros Hown Hget. induction depth as [|d IH]; [reflexivity|].
  rewrite call_Synth. cbn [derived_body]. unfold _ne__from_eq.
  unfold call_attribute. rewrite Hown.
  rewrite result_bind, (call_method_found _ a _ b _ Hget).
  cbn [result snd]. fold (result (call d (Synth ne_from_eq) a b)).
  rewrite IH. reflexivity.
Qed.

Lemma eq_from_ne_exhausts depth a b :
  ob_dict (ob_self a) !! "__eq__" = None ->
  getattr (ob_type a) "__eq__" = Some (Synth eq_from_ne) ->
  result (call depth (Synth eq_from_ne) a b) = Raise RecursionError.
Proof.
  intros Hown Hget. induction depth as [|d IH]; [reflexivity|].
  rewrite call_Synth. cbn [derived_body]. unfold _eq__from_ne.
  unfold call_attribute. rewrite Hown.
  rewrite result_bind, (call_method_found _ a _ b _ Hget).
  cbn [result snd]. fold (result (call d (Synth eq_from_ne) a b)).
  rewrite IH. reflexivity.
Qed.

Lemma operator_raises depth op a b fn e :
  same_type (ob_type a) (ob_type b) = true ->
  getattr (ob_type a) (dunder op) = Some fn ->
  result (call depth fn a b) = Raise e ->
  result (py_compare depth op a b) = Raise e.
Proof.
  intros Hsame Hget Hraise. unfold py_compare, richcompare.
  rewrite Hsame. cbn [negb andb]. rewrite result_bind.
  cbn [ret result snd is_NotImplemented negb].
  rewrite result_bind. unfold slot_tp_richcompare. rewrite Hget.
  rewrite result_bind. cbn [tell result snd].
  fold (result (call depth fn a b)). rewrite Hraise. reflexivity.
Qed.

(** ** Classes without an ordering relation *)

Lemma Sortable_abstracts_recorded : abstracts_recorded Sortable.
Proof.
  exists Sortable_abstractmethods. split; [reflexivity|].
  intros name H. unfold is_abstract in H. cbn [getattr] in H.
  destruct (Sortable_dict !! name) as [fn|] eqn:E; [|discriminate].
  apply Sortable_dict_names in E as [Hin _].
  unfold Sortable_abstractmethods. apply elem_of_list_to_set.
  apply list_elem_of_In. exact Hin.
Qed.

Lemma abstracts_complete n d a b name :
  abstracts_recorded b ->
  is_abstract (Subclass n d a b) name = true ->
  name ∈ inherited_abstracts (Subclass n d a b)
         ∪ own_abstracts (Subclass n d a b).
Proof.
  intros (names & Hnames & Hall) Habs.
  destruct (d !! name) as [fn|] eqn:E.
  - apply elem_of_union_r. unfold own_abstracts. cbn [cls_dict].
    apply elem_of_dom. exists fn. apply map_lookup_filter_Some.
    split; [exact E|]. simpl.
    unfold is_abstract in Habs. cbn [getattr] in Habs. rewrite E in Habs.
    exact Habs.
  - apply elem_of_union_l. cbn [inherited_abstracts]. rewrite Hnames.
    apply elem_of_filter. split; [exact Habs|].
    apply Hall. unfold is_abstract in *. cbn [getattr] in Habs.
    rewrite E in Habs. exact Habs.
Qed.

Lemma getattr_relation cls op :
  In op relations -> exists fn, getattr cls op = Some fn.
Proof.
  intros Hop. induction cls as [|n d a b IH]; cbn [getattr].
  - unfold relations in Hop. simpl in Hop.
    destruct Hop as [<-|[<-|[<-|[<-|[<-|[<-|[]]]]]]]; eexists; reflexivity.
  - destruct (d !! op); eauto.
Qed.

Lemma same_base_refl c : same_base c c.
Proof. destruct c; simpl; auto. Qed.

Lemma same_base_trans c1 c2 c3 :
  same_base c1 c2 -> same_base c2 c3 -> same_base c1 c3.
Proof.
  destruct c1, c2, c3; simpl; try tauto.
  intros [-> ->] [-> ->]. auto.
Qed.

Lemma same_base_setattr c name fn : same_base c (setattr c name fn).
Proof. destruct c; simpl; auto. Qed.

Lemma same_base_install_missing concrete convs :
  forall c, same_base c (install_missing concrete convs c).
Proof.
  unfold install_missing.
  induction convs as [|[k v] rest IH]; intros c; simpl;
    [apply same_base_refl|].
  eapply same_base_trans; [|apply IH].
  destruct (negb (name_in k concrete));
    [apply same_base_setattr|apply same_base_refl].
Qed.

Lemma same_base_update_abstractmethods c :
  same_base c (update_abstractmethods c).
Proof. destruct c as [|n d [a|] b]; simpl; auto. Qed.

Lemma same_base_init_subclass cls cls' :
  __init_subclass__ cls = Ret cls' -> same_base cls cls'.
Proof.
  rewrite init_subclass_halves. unfold resolve_equality, resolve_ordering.
  destruct (negb (is_concrete cls "__eq__" || is_concrete cls "__ne__"));
    [discriminate|].
  cbn [obind].
  set (c := if negb (is_concrete _ "__eq__") then _ else _).
  assert (Hc : same_base cls c).
  { subst c.
    destruct (negb (is_concrete cls "__ne__")), (negb (is_concrete cls "__eq__"));
      eauto using same_base_refl, same_base_setattr, same_base_trans. }
  destruct (existsb (is_concrete c) _compare_ops).
  - destruct (py_max (concrete_ops c)); [|discriminate].
    destruct (getitem _compare_conversions s); [|discriminate].
    cbn [obind]. intros [= <-].
    eauto using same_base_trans, same_base_install_missing,
      same_base_update_abstractmethods.
  - cbn [obind]. intros [= <-].
    eauto using same_base_trans, same_base_update_abstractmethods.
Qed.

Lemma class_statement_abstracts_recorded name namespace base C :
  abstracts_recorded base ->
  class_statement name namespace base = Ret C ->
  abstracts_recorded C.
Proof.
  intros Hbase Hdef.
  destruct (class_statement_inv _ _ _ _ Hdef) as (cls' & Hreg & ->).
  pose proof (same_base_init_subclass _ _ Hreg) as Hsame.
  destruct cls' as [|n' d' a' b']; [contradiction|].
  simpl in Hsame. destruct Hsame as [<- <-].
  eexists. split; [reflexivity|].
  intros x Hx. apply abstracts_complete; [exact Hbase|].
  unfold is_abstract in *. rewrite getattr__abc_init in Hx. exact Hx.
Qed.

(** ** The operators when the left operand's method settles it *)

Lemma same_type_refl c : same_type c c = true.
Proof. unfold same_type. apply bool_decide_eq_true_2. reflexivity. Qed.

Lemma call_None depth a b : call depth PyNone a b = raise TypeError.
Proof. destruct depth; reflexivity. Qed.

Lemma call_method_author depth a name b flag body :
  getattr (ob_type a) name = Some (PyFunc flag body) ->
  call_method (call (S depth)) a name b
  = ([Invoke name (id a) (id b)], body (ob_self a) (ob_self b)).
Proof. intros H. rewrite (call_method_found _ a name b _ H). reflexivity. Qed.

(** The left operand's method answers: that is the operator's value. *)
Lemma operator_returns depth op a b t v :
  same_type (ob_type a) (ob_type b) = true ->
  call_method (call depth) a (dunder op) b = (t, Ret v) ->
  is_NotImplemented v = false ->
  py_compare depth op a b = (t, Ret v).
Proof.
  intros Hsame Hcall Hv. unfold py_compare, richcompare.
  rewrite Hsame. cbn [negb andb]. unfold ret at 1. rewrite bind_Ret.
  cbn [is_NotImplemented negb app].
  assert (Hslot : slot_tp_richcompare (call depth) a b op = (t, Ret v)).
  { unfold slot_tp_richcompare. unfold call_method in Hcall.
    destruct (getattr (ob_type a) (dunder op)); [exact Hcall|].
    discriminate. }
  rewrite Hslot, bind_Ret, Hv. cbn [negb ret trace result fst snd].
  rewrite app_nil_r. reflexivity.
Qed.

(** ** What [__abstractmethods__] holds after a class statement *)

Lemma class_statement_abstract_names name namespace base C :
  abstracts_recorded base ->
  class_statement name namespace base = Ret C ->
  exists names,
    cls_abstractmethods C = Some names /\
    forall x, x ∈ names <-> is_abstract C x = true.
Proof.
  intros Hbase Hdef.
  destruct (class_statement_abstracts_recorded _ _ _ _ Hbase Hdef)
    as (names & Hnames & Hcomplete).
  exists names. split; [exact Hnames|].
  intros x. split; [|apply Hcomplete].
  destruct (class_statement_inv _ _ _ _ Hdef) as (cls' & Hreg & ->).
  destruct (init_subclass_inv _ _ Hreg) as (_ & _ & Hcls' & _).
  rewrite (cls_abstractmethods__abc_init cls' Hcls') in Hnames.
  injection Hnames as <-. intros Hin.
  unfold is_abstract. rewrite getattr__abc_init.
  apply abstracts_sound, Hin.
Qed.

(** A relation that is neither concrete nor abstract is bound to [None]. *)
Lemma relation_bound_to_None cls op :
  In op relations ->
  is_concrete cls op = false -> is_abstract cls op = false ->
  getattr cls op = Some PyNone.
Proof.
  intros Hop Hc Ha. destruct (getattr_relation cls op Hop) as (fn & Hfn).
  unfold is_concrete, is_abstract in *. rewrite Hfn in *.
  destruct fn as [[]| |]; simpl in *; congruence.
Qed.

Lemma existsb_compare_ops_false (f : string -> bool) op :
  existsb f _compare_ops = false -> In op precedence -> f op = false.
Proof.
  unfold _compare_ops, precedence. simpl. intros H Hop.
  destruct (f "__lt__") eqn:H1, (f "__le__") eqn:H2,
           (f "__gt__") eqn:H3, (f "__ge__") eqn:H4; try discriminate.
  destruct Hop as [<-|[<-|[<-|[<-|[]]]]]; assumption.
Qed.

Lemma orderings_precedence op : In op orderings -> In (dunder op) precedence.
Proof.
  unfold orderings, precedence. simpl.
  intros [<-|[<-|[<-|[<-|[]]]]]; simpl; auto 6.
Qed.

Lemma precedence_relations name : In name precedence -> In name relations.
Proof. unfold precedence, relations. simpl. tauto. Qed.

(** * The claims *)

(** C1, as the code has it: on [Student], whose [__ne__] the hook supplied,
    [Student('A',90) != Student('B',70)] raises [RecursionError] whatever
    the recursion limit, although [==] on the same pair answers [False];
    and on a class that only wrote [__ne__], [==] raises in the same way
    although [!=] answers. *)
Theorem C1_synthesized_equality_exhausts_stack depth :
  result (compare_new depth Py_NE
            (new_Student 1 "A" 90) (new_Student 2 "B" 70))
  = Raise RecursionError /\
  result (compare_new (S depth) Py_EQ
            (new_Student 1 "A" 90) (new_Student 2 "B" 70))
  = Ret (VBool false) /\
  result (py_compare depth Py_EQ
            {| ob_type := ne_only; ob_self := {| ob_id := 1; ob_dict := ∅ |} |}
            {| ob_type := ne_only; ob_self := {| ob_id := 2; ob_dict := ∅ |} |})
  = Raise RecursionError /\
  result (py_compare (S depth) Py_NE
            {| ob_type := ne_only; ob_self := {| ob_id := 1; ob_dict := ∅ |} |}
            {| ob_type := ne_only; ob_self := {| ob_id := 2; ob_dict := ∅ |} |})
  = Ret (VBool true).
Proof.
  unfold compare_new. rewrite !new_Student_student.
  cbn [lift bind]. split; [|split; [|split]].
  - destruct (py_compare depth Py_NE _ _) as [t o] eqn:E.
    cbn [result snd app].
    change o with (result (t, o)). rewrite <- E.
    apply (operator_raises depth Py_NE _ _ (Synth ne_from_eq)).
    + by_evaluation.
    + by_evaluation.
    + apply ne_from_eq_exhausts; by_evaluation.
  - by_evaluation.
  - apply (operator_raises depth Py_EQ _ _ (Synth eq_from_ne)).
    + by_evaluation.
    + by_evaluation.
    + apply eq_from_ne_exhausts; by_evaluation.
  - by_evaluation.
Qed.

(** C2. The root the hook computes is the first of LT, LE, GT, GE that
    the class has concretely, and every ordering relation the hook installs
    is the entry of that root's row of the table; so a class with just LT
    and GE gets its LE and GT from LT. *)
Theorem C2_root_precedence cls cls' root :
  __init_subclass__ cls = Ret cls' ->
  highest_precedence (is_concrete cls) = Some root ->
  root_of cls = Some root /\
  (forall target, In target _compare_ops -> is_concrete cls target = false ->
     exists d, conversion root target = Some d /\
               getattr cls' target = Some (Synth d)) /\
  (is_concrete cls "__lt__" = true -> is_concrete cls "__ge__" = true ->
   is_concrete cls "__le__" = false -> is_concrete cls "__gt__" = false ->
   getattr cls' "__le__" = Some (Synth le_from_lt) /\
   getattr cls' "__gt__" = Some (Synth gt_from_lt)).
Proof.
  intros Hreg Hroot.
  destruct (init_subclass_inv _ _ Hreg) as (_ & _ & _ & Hget).
  split; [rewrite root_of_precedence; exact Hroot|].
  split; [exact (installed_from_root_row _ _ _ Hreg Hroot)|].
  - intros Hlt Hge Hle Hgt.
    assert (root = "__lt__") as ->.
    { unfold highest_precedence, precedence in Hroot. simpl in Hroot.
      rewrite Hlt in Hroot. congruence. }
    rewrite !Hget. unfold registered_attr. rewrite Hle, Hgt, Hroot.
    split; reflexivity.
Qed.

Lemma C2_root_precedence_witness :
  root_of lt_ge_only = Some "__lt__" /\
  getattr (the (__init_subclass__ lt_ge_only)) "__le__"
  = Some (Synth le_from_lt) /\
  getattr (the (__init_subclass__ lt_ge_only)) "__gt__"
  = Some (Synth gt_from_lt).
Proof.
  assert (Hreg : __init_subclass__ lt_ge_only
                 = Ret (the (__init_subclass__ lt_ge_only)))
    by (by_evaluation).
  assert (Hroot : highest_precedence (is_concrete lt_ge_only) = Some "__lt__")
    by (by_evaluation).
  destruct (C2_root_precedence lt_ge_only _ "__lt__" Hreg Hroot)
    as (H1 & _ & H3).
  split; [exact H1|].
  apply H3; by_evaluation.
Defined.

(** C3. After the class statement, an ordering relation the class did not
    supply, called on an instance for a pair on which the root answers true
    or false, computes the identity of section 4.2 for that root: LE = LT
    or EQ, GT = not LT and NE, GE = not LT, and so on for the roots LE, GT
    and GE, with EQ and NE the class's [==] and [!=] on the pair. *)
Theorem C3_closed_forms name namespace base C root target depth a b t r :
  class_statement name namespace base = Ret C ->
  highest_precedence (is_concrete (Subclass name namespace None base))
  = Some (dunder root) ->
  In (dunder target) _compare_ops ->
  is_concrete (Subclass name namespace None base) (dunder target) = false ->
  ob_type a = C ->
  call_method (call depth) a (dunder root) b = (t, Ret (VBool r)) ->
  exists fn form,
    getattr C (dunder target) = Some (Synth fn) /\
    closed_form root target r
      (py_compare depth Py_EQ a b) (py_compare depth Py_NE a b) = Some form /\
    call_method (call (S depth)) a (dunder target) b =
    (Invoke (dunder target) (id a) (id b) :: t ++ trace form, result form).
Proof.
  intros Hdef Hroot Htarget Hmissing Htype Hcall.
  destruct (class_statement_inv _ _ _ _ Hdef) as (cls' & Hreg & HC).
  destruct (installed_from_root_row _ _ _ Hreg Hroot _ Htarget Hmissing)
    as (fn & Hconv & Hget).
  destruct (derived_closed_form _ _ _ _ _ _ _ _ Hconv Hcall)
    as (form & Hform & Heval).
  exists fn, form.
  assert (HgetC : getattr C (dunder target) = Some (Synth fn)).
  { rewrite HC, getattr__abc_init. exact Hget. }
  split; [exact HgetC|]. split; [exact Hform|].
  rewrite (call_method_found _ a _ b (Synth fn)) by (rewrite Htype; exact HgetC).
  rewrite Heval. reflexivity.
Qed.

Lemma C3_closed_forms_witness :
  call_method (call 1000) (student 1 "A" 70) "__ge__" (student 2 "B" 90)
  = ([Invoke "__ge__" 1 2; Invoke "__le__" 1 2; Invoke "__eq__" 1 2],
     Ret (VBool false)).
Proof.
  destruct (C3_closed_forms "Student" Student_namespace (the Person)
              (the Student) Py_LE Py_GE 999
              (student 1 "A" 70) (student 2 "B" 90)
              [Invoke "__le__" 1 2] true)
    as (fn & form & _ & Hform & Heval).
  - exact Student_defined.
  - by_evaluation.
  - vm_compute. auto 6.
  - by_evaluation.
  - reflexivity.
  - by_evaluation.
  - injection Hform as <-. etransitivity; [exact Heval|].
    by_evaluation.
Defined.

(** C4. Whatever entry of the table a class has for [target], if calling
    the root of that entry on a pair gives [NotImplemented], so does
    calling [target], and nothing is invoked after the root: the trace is
    the call of [target] followed by the trace of the root call, which for
    a root written by the class author is that single call. *)
Theorem C4_not_applicable_short_circuit root target fn depth a b t :
  conversion root target = Some fn ->
  getattr (ob_type a) target = Some (Synth fn) ->
  call_method (call depth) a root b = (t, Ret NotImplemented) ->
  call_method (call (S depth)) a target b
  = (Invoke target (id a) (id b) :: t, Ret NotImplemented) /\
  (forall flag body,
     getattr (ob_type a) root = Some (PyFunc flag body) ->
     t = [Invoke root (id a) (id b)]).
Proof.
  intros Hconv Hget Hroot. split.
  - rewrite (call_method_found _ a target b (Synth fn) Hget).
    rewrite (derived_NotImplemented _ _ _ _ _ _ _ Hconv Hroot).
    reflexivity.
  - intros flag body Hfn.
    rewrite (call_method_found _ a root b _ Hfn) in Hroot.
    destruct depth as [|d]; simpl in Hroot; [discriminate|].
    injection Hroot as <- _. reflexivity.
Qed.

Lemma C4_not_applicable_short_circuit_witness :
  call_method (call 1000)
    {| ob_type := lt_declines; ob_self := {| ob_id := 1; ob_dict := ∅ |} |}
    "__le__"
    {| ob_type := lt_declines; ob_self := {| ob_id := 2; ob_dict := ∅ |} |}
  = ([Invoke "__le__" 1 2; Invoke "__lt__" 1 2], Ret NotImplemented).
Proof.
  apply (C4_not_applicable_short_circuit "__lt__" "__le__" le_from_lt 999
           {| ob_type := lt_declines; ob_self := {| ob_id := 1; ob_dict := ∅ |} |}
           {| ob_type := lt_declines; ob_self := {| ob_id := 2; ob_dict := ∅ |} |}
           [Invoke "__lt__" 1 2]);
    by_evaluation.
Defined.

(** C5. Defining a class raises (a [TypeError], before the class exists)
    exactly when the class has neither a concrete [__eq__] nor a concrete
    [__ne__]; nothing else makes the definition fail, so a class with no
    ordering relation at all is defined without error. *)
Theorem C5_definition_error_iff name namespace base :
  let cls := Subclass name namespace None base in
  ((exists e, class_statement name namespace base = Raise e) <->
   is_concrete cls "__eq__" = false /\ is_concrete cls "__ne__" = false) /\
  (forall e, class_statement name namespace base = Raise e -> e = TypeError) /\
  (is_concrete cls "__eq__" || is_concrete cls "__ne__" = true ->
   existsb (is_concrete cls) _compare_ops = false ->
   exists C, class_statement name namespace base = Ret C).
Proof.
  intros cls. unfold class_statement. fold cls.
  destruct (is_concrete cls "__eq__" || is_concrete cls "__ne__") eqn:H.
  - destruct (init_subclass_spec cls H) as (cls' & -> & _). simpl.
    split; [split|split].
    + intros [e He]. discriminate.
    + intros [He Hn]. rewrite He, Hn in H. discriminate.
    + intros e He. discriminate.
    + intros _ _. eauto.
  - apply orb_false_iff in H as [He Hn].
    rewrite (init_subclass_raises cls He Hn). simpl.
    split; [split|split].
    + intros _. split; assumption.
    + intros _. eauto.
    + intros e [= <-]. reflexivity.
    + discriminate.
Qed.

(** C6. The hook leaves every relation that is already concrete as it
    found it (whether the author wrote it, the class inherited it, or an
    earlier registration derived it): lookup finds the same function and
    the class's own dictionary entry is not written; and running the hook
    on its own result changes nothing. *)
Theorem C6_concrete_relations_kept cls cls' :
  __init_subclass__ cls = Ret cls' ->
  (forall name, is_concrete cls name = true ->
                getattr cls' name = getattr cls name /\
                cls_dict cls' !! name = cls_dict cls !! name) /\
  __init_subclass__ cls' = Ret cls' /\
  __init_subclass__ (_abc_init cls') = Ret (_abc_init cls').
Proof.
  intros Hreg.
  destruct (init_subclass_inv _ _ Hreg) as (_ & _ & Hcls' & Hget).
  destruct (registered_equality_concrete _ _ Hreg) as [He Hn].
  assert (Hord : forall op, In op precedence ->
            is_concrete cls' op = existsb (is_concrete cls') _compare_ops).
  { intros op Hop.
    rewrite (registered_ordering_concrete _ _ op Hreg Hop).
    pose proof (fun o => registered_ordering_concrete cls cls' o Hreg) as Hc.
    remember (existsb (is_concrete cls) _compare_ops) as supplied.
    unfold _compare_ops. simpl.
    rewrite !Hc by (unfold precedence; simpl; auto 6).
    destruct supplied; reflexivity. }
  split; [|split].
  - intros name Hc. split.
    + rewrite Hget. unfold registered_attr. rewrite Hc. reflexivity.
    + apply (init_subclass_cls_dict _ _ _ Hreg Hc).
  - rewrite (init_subclass_registered cls' He Hn Hord). f_equal.
    rewrite init_subclass_halves in Hreg.
    destruct (resolve_equality cls) as [c|]; [|discriminate].
    simpl in Hreg.
    destruct (resolve_ordering c) as [c2|]; [|discriminate].
    injection Hreg as <-. apply update_abstractmethods_idem.
  - rewrite init_subclass_registered.
    + f_equal. destruct cls'; [congruence|reflexivity].
    + unfold is_concrete. rewrite getattr__abc_init. exact He.
    + unfold is_concrete. rewrite getattr__abc_init. exact Hn.
    + intros op Hop.
      rewrite !(is_concrete_ext cls' (_abc_init cls') (getattr__abc_init cls')).
      rewrite (existsb_ext_in_ops _ _
                 (is_concrete_ext cls' (_abc_init cls') (getattr__abc_init cls'))).
      apply Hord, Hop.
Qed.

Lemma C6_concrete_relations_kept_witness :
  getattr (the (__init_subclass__ ByName_unregistered)) "__lt__"
  = Some (PyFunc false ByName__lt__) /\
  getattr (the (__init_subclass__ ByName_unregistered)) "__gt__"
  = Some (Synth gt_from_le) /\
  cls_dict (the (__init_subclass__ ByName_unregistered)) !! "__gt__" = None /\
  __init_subclass__ (the (__init_subclass__ ByName_unregistered))
  = Ret (the (__init_subclass__ ByName_unregistered)).
Proof.
  assert (Hreg : __init_subclass__ ByName_unregistered
                 = Ret (the (__init_subclass__ ByName_unregistered)))
    by (by_evaluation).
  destruct (C6_concrete_relations_kept ByName_unregistered _ Hreg)
    as (Hkept & Hidem & _).
  destruct (Hkept "__lt__") as [Hlt _]; [by_evaluation|].
  destruct (Hkept "__gt__") as [Hgt Hown]; [by_evaluation|].
  split; [rewrite Hlt; by_evaluation|].
  split; [rewrite Hgt; by_evaluation|].
  split; [rewrite Hown; by_evaluation|].
  exact Hidem.
Defined.

(** C7, as the code has it: [Person], which has [__eq__] and no ordering
    relation, is defined without error, but [Person('A')] raises
    [TypeError], so there are no two instances to compare; and on objects
    given that class all the same, [<] finds the stub inherited from
    [Sortable] and evaluates to [None] instead of raising. *)
Lemma C7_counterexample :
  class_statement "Person" Person_namespace Sortable = Ret (the Person) /\
  existsb (is_concrete (Subclass "Person" Person_namespace None Sortable))
    _compare_ops = false /\
  new_Person 1 "A" = Raise TypeError /\
  py_compare 1000 Py_LT
    {| ob_type := the Person;
       ob_self := {| ob_id := 1; ob_dict := {[ "name" := AStr "A" ]} |} |}
    {| ob_type := the Person;
       ob_self := {| ob_id := 2; ob_dict := {[ "name" := AStr "B" ]} |} |}
  = ([Invoke "__lt__" 1 2], Ret VNone).
Proof. repeat split; by_evaluation. Qed.

(** C7, amended. A class with a concrete [__eq__] or [__ne__] and no
    concrete ordering relation is defined without error, and the hook
    leaves its four ordering relations as it found them.  One that is
    abstract stays listed in [__abstractmethods__], and then the class
    cannot be instantiated: instantiation raises [TypeError].  One that is
    not abstract (it is bound to [None]) raises [TypeError] at the call
    when used on two instances of the class.  An [__eq__] written by the
    author answers [==] as it does anywhere. *)
Theorem C7_unordered_class name namespace base :
  abstracts_recorded base ->
  is_concrete (Subclass name namespace None base) "__eq__"
  || is_concrete (Subclass name namespace None base) "__ne__" = true ->
  existsb (is_concrete (Subclass name namespace None base)) _compare_ops
  = false ->
  exists C names,
    class_statement name namespace base = Ret C /\
    cls_abstractmethods C = Some names /\
    (forall op, In op orderings ->
       getattr C (dunder op)
       = getattr (Subclass name namespace None base) (dunder op) /\
       is_concrete C (dunder op) = false /\
       (dunder op ∈ names <->
        is_abstract (Subclass name namespace None base) (dunder op) = true)) /\
    ((exists op, In op orderings /\
        is_abstract (Subclass name namespace None base) (dunder op) = true) ->
     forall self, instantiate C self = Raise TypeError) /\
    (forall op depth a b,
       In op orderings ->
       is_abstract (Subclass name namespace None base) (dunder op) = false ->
       ob_type a = C -> ob_type b = C ->
       result (py_compare depth op a b) = Raise TypeError) /\
    (forall body depth a b v,
       getattr (Subclass name namespace None base) "__eq__"
       = Some (PyFunc false body) ->
       ob_type a = C -> ob_type b = C ->
       body (ob_self a) (ob_self b) = Ret v ->
       is_NotImplemented v = false ->
       result (py_compare (S depth) Py_EQ a b) = Ret v).
Proof.
  intros Hbase Heq Hnone.
  set (cls := Subclass name namespace None base) in *.
  destruct (init_subclass_spec cls Heq) as (cls' & Hreg & Hcls' & Hget').
  assert (Hdef : class_statement name namespace base = Ret (_abc_init cls')).
  { unfold class_statement. fold cls. rewrite Hreg. reflexivity. }
  destruct (class_statement_abstract_names _ _ _ _ Hbase Hdef)
    as (names & Hnames & Hiff).
  pose proof (class_statement_getattr _ _ _ _ Hdef) as Hget. fold cls in Hget.
  exists (_abc_init cls'), names.
  assert (Hkept : forall op, In op orderings ->
            getattr (_abc_init cls') (dunder op) = getattr cls (dunder op)).
  { intros op Hop. rewrite Hget. unfold registered_attr.
    rewrite (existsb_compare_ops_false _ _ Hnone (orderings_precedence _ Hop)).
    rewrite (highest_precedence_none _ Hnone).
    unfold orderings in Hop. simpl in Hop.
    destruct Hop as [<-|[<-|[<-|[<-|[]]]]]; reflexivity. }
  assert (Habs : forall op, In op orderings ->
            is_abstract (_abc_init cls') (dunder op)
            = is_abstract cls (dunder op)).
  { intros op Hop. unfold is_abstract. rewrite (Hkept op Hop). reflexivity. }
  split; [exact Hdef|]. split; [exact Hnames|].
  split; [|split; [|split]].
  - intros op Hop. split; [exact (Hkept op Hop)|]. split.
    + unfold is_concrete. rewrite (Hkept op Hop).
      apply (existsb_compare_ops_false _ _ Hnone (orderings_precedence _ Hop)).
    + rewrite Hiff, (Habs op Hop). reflexivity.
  - intros (op & Hop & Hisabs) self. unfold instantiate. rewrite Hnames.
    case_decide as Hempty; [|reflexivity].
    assert (Hin : dunder op ∈ names)
      by (apply Hiff; rewrite (Habs op Hop); exact Hisabs).
    rewrite Hempty in Hin. set_solver.
  - intros op depth a b Hop Hnotabs Ha Hb.
    assert (HNone : getattr (ob_type a) (dunder op) = Some PyNone).
    { rewrite Ha, (Hkept op Hop).
      apply relation_bound_to_None; [|
        apply (existsb_compare_ops_false _ _ Hnone
                 (orderings_precedence _ Hop))|exact Hnotabs].
      apply precedence_relations, orderings_precedence, Hop. }
    apply (operator_raises depth op a b PyNone TypeError).
    + rewrite Ha, Hb. apply same_type_refl.
    + exact HNone.
    + rewrite call_None. reflexivity.
  - intros body depth a b v Hbody Ha Hb Hv Hnot.
    assert (Hc : is_concrete cls "__eq__" = true)
      by (unfold is_concrete; rewrite Hbody; reflexivity).
    assert (HgetC : getattr (ob_type a) "__eq__" = Some (PyFunc false body)).
    { rewrite Ha, Hget. unfold registered_attr. rewrite Hc. exact Hbody. }
    rewrite (operator_returns (S depth) Py_EQ a b
               [Invoke "__eq__" (id a) (id b)] v);
      [reflexivity| | |exact Hnot].
    + rewrite Ha, Hb. apply same_type_refl.
    + rewrite (call_method_author _ a _ b _ _ HgetC), Hv. reflexivity.
Qed.

Lemma Unordered_defined :
  class_statement "Unordered" Unordered_namespace Sortable = Ret Unordered.
Proof. by_evaluation. Qed.

Lemma C7_unordered_class_witness :
  (forall self, new_Person 1 "A" = Raise TypeError /\
                instantiate (the Person) self = Raise TypeError) /\
  instantiate Unordered {| ob_id := 1; ob_dict := ∅ |} = Ret (unordered 1) /\
  result (py_compare 1000 Py_LT (unordered 1) (unordered 2))
  = Raise TypeError /\
  result (py_compare 1000 Py_EQ (unordered 1) (unordered 2))
  = Ret (VBool false).
Proof.
  destruct (C7_unordered_class "Person" Person_namespace Sortable
              Sortable_abstracts_recorded
              ltac:(by_evaluation) ltac:(by_evaluation))
    as (P & namesP & HdefP & _ & _ & HinstP & _).
  rewrite Person_defined in HdefP. injection HdefP as <-.
  destruct (C7_unordered_class "Unordered" Unordered_namespace Sortable
              Sortable_abstracts_recorded
              ltac:(by_evaluation) ltac:(by_evaluation))
    as (U & namesU & HdefU & _ & _ & _ & HcallU & HeqU).
  rewrite Unordered_defined in HdefU. injection HdefU as <-.
  split; [|split; [|split]].
  - intros self. split; [by_evaluation|].
    apply HinstP. exists Py_LT. split; [|by_evaluation].
    unfold orderings. simpl. auto.
  - by_evaluation.
  - apply (HcallU Py_LT 1000 (unordered 1) (unordered 2));
      [unfold orderings; simpl; auto|by_evaluation|reflexivity|reflexivity].
  - apply (HeqU (fun a b => Ret (VBool (N.eqb (ob_id a) (ob_id b)))) 999
             (unordered 1) (unordered 2) (VBool false));
      [by_evaluation|reflexivity|reflexivity|reflexivity|reflexivity].
Defined.

(** C8, as the code has it: [Described] is defined without error, supplies
    [__lt__] and has all six relations concrete afterwards, yet it cannot
    be instantiated, because its own abstract method [describe] is still
    listed in [__abstractmethods__]. *)
Lemma C8_counterexample :
  class_statement "Described" Described_namespace Sortable = Ret Described /\
  existsb (is_concrete (Subclass "Described" Described_namespace None Sortable))
    _compare_ops = true /\
  forallb (is_concrete Described) relations = true /\
  cls_abstractmethods Described = Some {[ "describe" ]} /\
  instantiate Described {| ob_id := 1; ob_dict := ∅ |} = Raise TypeError.
Proof. repeat split; by_evaluation. Qed.

(** C8, amended. When the class definition succeeds and the class supplies
    an ordering relation, all six relations are concrete afterwards and
    none of them is listed in [__abstractmethods__], which is computed
    after the hook has run; the class can be instantiated provided it has
    no abstract method besides the six relations. *)
Theorem C8_surface_complete name namespace base C :
  let cls := Subclass name namespace None base in
  class_statement name namespace base = Ret C ->
  existsb (is_concrete cls) _compare_ops = true ->
  (forall op, In op relations -> is_concrete C op = true) /\
  (exists names, cls_abstractmethods C = Some names /\
                 forall op, In op relations -> op ∉ names) /\
  ((forall other, ~ In other relations -> is_abstract cls other = false) ->
   cls_abstractmethods C = Some ∅ /\
   forall self, instantiate C self = Ret {| ob_type := C; ob_self := self |}).
Proof.
  intros cls Hdef Hsupplied.
  destruct (class_statement_inv _ _ _ _ Hdef) as (cls' & Hreg & ->).
  fold cls in Hreg.
  destruct (init_subclass_inv _ _ Hreg) as (_ & _ & Hcls' & Hget).
  assert (Hsix : forall op, In op relations -> is_concrete cls' op = true).
  { intros op Hop. unfold relations in Hop. simpl in Hop.
    destruct (registered_equality_concrete _ _ Hreg) as [He Hn].
    destruct Hop as [<-|[<-|Hop]]; [exact He|exact Hn|].
    rewrite (registered_ordering_concrete cls cls' op Hreg) by exact Hop.
    exact Hsupplied. }
  rewrite (cls_abstractmethods__abc_init cls' Hcls').
  split; [|split].
  - intros op Hop. unfold is_concrete. rewrite getattr__abc_init.
    apply Hsix, Hop.
  - eexists. split; [reflexivity|]. intros op Hop Hin.
    apply abstracts_sound in Hin.
    rewrite (is_concrete_not_abstract _ _ (Hsix op Hop)) in Hin.
    discriminate.
  - intros Hothers.
    assert (Hempty : inherited_abstracts cls' ∪ own_abstracts cls' = ∅).
    { apply set_eq. intros x. split; [|set_solver].
      intros Hin. exfalso. apply abstracts_sound in Hin.
      destruct (decide (In x relations)) as [Hx|Hx].
      - rewrite (is_concrete_not_abstract _ _ (Hsix x Hx)) in Hin.
        discriminate.
      - unfold is_abstract in Hin.
        rewrite Hget, (registered_attr_other cls x Hx) in Hin.
        fold (is_abstract cls x) in Hin. rewrite (Hothers x Hx) in Hin.
        discriminate. }
    rewrite Hempty. split; [reflexivity|].
    intros self. unfold instantiate.
    rewrite (cls_abstractmethods__abc_init cls' Hcls'), Hempty.
    reflexivity.
Qed.

Lemma C8_surface_complete_witness :
  (forall op, In op relations -> is_concrete (the Student) op = true) /\
  cls_abstractmethods (the Student) = Some ∅ /\
  forall self,
    instantiate (the Student) self
    = Ret {| ob_type := the Student; ob_self := self |}.
Proof.
  destruct (C8_surface_complete "Student" Student_namespace (the Person)
              (the Student) Student_defined)
    as (Hsix & _ & Hinst).
  { by_evaluation. }
  split; [exact Hsix|].
  apply Hinst, Student_no_other_abstract.
Defined.

(** C9. The scenario of examples/example.py: with [Student] defining only
    [__le__] on top of [Person]'s [__eq__],
    [Student('A',90) > Student('B',70)] is [True],
    [Student('A',90) <= Student('A',90)] is [True] and
    [Student('A',90) == Student('B',90)] is [False]. *)
Theorem C9_student_scenario depth :
  getattr (the Student) "__gt__" = Some (Synth gt_from_le) /\
  result (compare_new (S (S depth)) Py_GT
            (new_Student 1 "A" 90) (new_Student 2 "B" 70))
  = Ret (VBool true) /\
  result (compare_new (S depth) Py_LE
            (new_Student 1 "A" 90) (new_Student 2 "A" 90))
  = Ret (VBool true) /\
  result (compare_new (S depth) Py_EQ
            (new_Student 1 "A" 90) (new_Student 2 "B" 90))
  = Ret (VBool false).
Proof. repeat split; by_evaluation. Qed.

(** C10. A function of the table finds its root on the class of the
    instance it is called on.  When a subclass overrides the root of a
    relation its base has from the table, the subclass's definition leaves
    that relation alone (no entry in the subclass's own dictionary, the
    base's function is what lookup finds), and calling it on an instance of
    the subclass computes from the subclass's root. *)
Theorem C10_dynamic_root_lookup P cname namespace C root target fn body
    depth a b r :
  conversion (dunder root) (dunder target) = Some fn ->
  getattr P (dunder target) = Some (Synth fn) ->
  namespace !! dunder root = Some (PyFunc false body) ->
  namespace !! dunder target = None ->
  class_statement cname namespace P = Ret C ->
  ob_type a = C ->
  body (ob_self a) (ob_self b) = Ret (VBool r) ->
  cls_dict C !! dunder target = None /\
  getattr C (dunder target) = Some (Synth fn) /\
  exists form,
    closed_form root target r
      (py_compare (S depth) Py_EQ a b) (py_compare (S depth) Py_NE a b)
    = Some form /\
    call_method (call (S (S depth))) a (dunder target) b =
    (Invoke (dunder target) (id a) (id b)
       :: Invoke (dunder root) (id a) (id b) :: trace form,
     result form).
Proof.
  intros Hconv Hparent Hroot Htarget Hdef Htype Hbody.
  set (cls := Subclass cname namespace None P).
  assert (Hct : is_concrete cls (dunder target) = true).
  { unfold is_concrete, cls. cbn [getattr]. rewrite Htarget, Hparent.
    reflexivity. }
  assert (Hcr : is_concrete cls (dunder root) = true).
  { unfold is_concrete, cls. cbn [getattr]. rewrite Hroot. reflexivity. }
  destruct (class_statement_inv _ _ _ _ Hdef) as (cls' & Hreg & HC).
  fold cls in Hreg.
  pose proof (class_statement_getattr _ _ _ _ Hdef) as Hget. fold cls in Hget.
  assert (HgetT : getattr C (dunder target) = Some (Synth fn)).
  { rewrite Hget. unfold registered_attr. rewrite Hct.
    unfold cls. cbn [getattr]. rewrite Htarget. exact Hparent. }
  assert (HgetR : getattr C (dunder root) = Some (PyFunc false body)).
  { rewrite Hget. unfold registered_attr. rewrite Hcr.
    unfold cls. cbn [getattr]. rewrite Hroot. reflexivity. }
  split; [|split; [exact HgetT|]].
  - rewrite HC, cls_dict__abc_init.
    rewrite (init_subclass_cls_dict _ _ _ Hreg Hct). exact Htarget.
  - assert (Hcall : call_method (call (S depth)) a (dunder root) b
                    = ([Invoke (dunder root) (id a) (id b)], Ret (VBool r))).
    { rewrite (call_method_found _ a _ b (PyFunc false body))
        by (rewrite Htype; exact HgetR).
      cbn [call lift trace result fst snd]. rewrite Hbody. reflexivity. }
    destruct (derived_closed_form _ _ _ _ _ _ _ _ Hconv Hcall)
      as (form & Hform & Heval).
    exists form. split; [exact Hform|].
    rewrite (call_method_found _ a _ b (Synth fn))
      by (rewrite Htype; exact HgetT).
    rewrite Heval. reflexivity.
Qed.

Lemma C10_dynamic_root_lookup_witness :
  cls_dict Reversed !! "__gt__" = None /\
  getattr Reversed "__gt__" = Some (Synth gt_from_le) /\
  call_method (call 1000) (reversed 1 "A" 90) "__gt__" (reversed 2 "B" 70)
  = ([Invoke "__gt__" 1 2; Invoke "__le__" 1 2], Ret (VBool false)) /\
  call_method (call 1000) (student 1 "A" 90) "__gt__" (student 2 "B" 70)
  = ([Invoke "__gt__" 1 2; Invoke "__le__" 1 2], Ret (VBool true)).
Proof.
  destruct (C10_dynamic_root_lookup (the Student) "Reversed"
              Reversed_namespace Reversed Py_LE Py_GT gt_from_le
              Reversed__le__ 998
              (reversed 1 "A" 90) (reversed 2 "B" 70) true)
    as (Hown & Hget & form & Hform & Heval);
    try (by_evaluation).
  split; [exact Hown|]. split; [exact Hget|]. split.
  - injection Hform as <-. etransitivity; [exact Heval|].
    by_evaluation.
  - by_evaluation.
Defined.

(** * Further properties *)

(** ** What the hook leaves alone *)

Lemma resolve_equality_cls_dict_other cls c name :
  resolve_equality cls = Ret c ->
  name <> "__eq__" -> name <> "__ne__" ->
  cls_dict c !! name = cls_dict cls !! name.
Proof.
  intros Heq He Hn. unfold resolve_equality in Heq.
  destruct (negb (is_concrete cls "__eq__" || is_concrete cls "__ne__"))
    eqn:Hany; [discriminate|].
  assert (Hcls : cls <> Sortable).
  { intros ->. rewrite !Sortable_not_concrete in Hany. discriminate. }
  injection Heq as <-.
  destruct (negb (is_concrete cls "__ne__")), (negb (is_concrete cls "__eq__"));
    rewrite ?cls_dict_setattr;
    try reflexivity; try exact Hcls; try congruence;
    apply setattr_not_Sortable; exact Hcls.
Qed.

Lemma resolve_ordering_cls_dict_other c c2 name :
  c <> Sortable ->
  resolve_ordering c = Ret c2 ->
  ~ In name precedence ->
  cls_dict c2 !! name = cls_dict c !! name.
Proof.
  intros Hcne Hord Hout. unfold resolve_ordering in Hord.
  destruct (existsb (is_concrete c) _compare_ops) eqn:Hex.
  - destruct (highest_precedence_some _ Hex) as (root & Hroot & _ & Hin).
    fold (root_of c) in Hord. rewrite root_of_precedence, Hroot in Hord.
    destruct (conversions_row root Hin) as (convs & Hrow & _ & Hkeys).
    rewrite Hrow in Hord. injection Hord as <-.
    apply install_missing_cls_dict; [|exact Hcne].
    intros Hkey. apply getitem_present in Hkey as (d & Hd).
    exfalso. apply Hout.
    apply (conversion_only_orderings root name d).
    unfold conversion. rewrite Hrow. exact Hd.
  - injection Hord as <-. reflexivity.
Qed.

Lemma init_subclass_cls_dict_other cls cls' name :
  __init_subclass__ cls = Ret cls' ->
  ~ In name relations ->
  cls_dict cls' !! name = cls_dict cls !! name.
Proof.
  intros Hreg Hout.
  destruct (init_subclass_inv _ _ Hreg) as (Hen & Hcls & _ & _).
  rewrite init_subclass_halves in Hreg.
  destruct (resolve_equality_spec cls Hen) as (c & Heq & Hcne & _).
  rewrite Heq in Hreg. cbn [obind] in Hreg.
  destruct (resolve_ordering c) as [c2|] eqn:Hord; [|discriminate].
  cbn [obind] in Hreg. injection Hreg as <-.
  rewrite cls_dict_update_abstractmethods.
  rewrite (resolve_ordering_cls_dict_other c c2 name Hcne Hord).
  - apply (resolve_equality_cls_dict_other _ _ _ Heq);
      intros ->; apply Hout; unfold relations; simpl; auto.
  - intros Hin. apply Hout. unfold precedence in Hin. unfold relations.
    simpl in *. tauto.
Qed.

Lemma cls_name_same_base c1 c2 : same_base c1 c2 -> cls_name c1 = cls_name c2.
Proof. destruct c1, c2; simpl; intuition congruence. Qed.

Lemma cls_abstractmethods_setattr c name fn :
  cls_abstractmethods (setattr c name fn) = cls_abstractmethods c.
Proof. destruct c; reflexivity. Qed.

Lemma cls_abstractmethods_install_missing concrete convs :
  forall c,
    cls_abstractmethods (install_missing concrete convs c)
    = cls_abstractmethods c.
Proof.
  unfold install_missing.
  induction convs as [|[k v] rest IH]; intros c; simpl; [reflexivity|].
  rewrite IH. destruct (negb (name_in k concrete)); [|reflexivity].
  apply cls_abstractmethods_setattr.
Qed.

(** Line 83: the one thing the hook writes besides relations. *)
Lemma init_subclass_abstractmethods cls cls' :
  __init_subclass__ cls = Ret cls' ->
  cls_abstractmethods cls' =
  match cls_abstractmethods cls with
  | None => None
  | Some _ => Some (inherited_abstracts cls' ∪ own_abstracts cls')
  end.
Proof.
  rewrite init_subclass_halves. unfold resolve_equality, resolve_ordering.
  destruct (negb (is_concrete cls "__eq__" || is_concrete cls "__ne__"))
    eqn:Hany; [discriminate|].
  assert (Hcls : cls <> Sortable).
  { intros ->. rewrite !Sortable_not_concrete in Hany. discriminate. }
  cbn [obind].
  set (c := if negb (is_concrete _ "__eq__") then _ else _).
  assert (Hc : cls_abstractmethods c = cls_abstractmethods cls /\
               c <> Sortable).
  { subst c.
    destruct (negb (is_concrete cls "__ne__")),
             (negb (is_concrete cls "__eq__"));
      rewrite ?cls_abstractmethods_setattr; split;
      try reflexivity; try exact Hcls;
      repeat apply setattr_not_Sortable; exact Hcls. }
  destruct Hc as [Hfield Hcne]. rewrite <- Hfield. clearbody c.
  assert (Hupd : forall c2, c2 <> Sortable ->
            cls_abstractmethods (update_abstractmethods c2) =
            match cls_abstractmethods c2 with
            | None => None
            | Some _ =>
                Some (inherited_abstracts (update_abstractmethods c2)
                        ∪ own_abstracts (update_abstractmethods c2))
            end).
  { intros [|n d [x|] b] H; [congruence|reflexivity|reflexivity]. }
  destruct (existsb (is_concrete c) _compare_ops).
  - destruct (py_max (concrete_ops c)); [|discriminate].
    destruct (getitem _compare_conversions s) as [convs|]; [|discriminate].
    cbn [obind]. intros [= <-].
    rewrite Hupd by (apply install_missing_not_Sortable, Hcne).
    rewrite cls_abstractmethods_install_missing. reflexivity.
  - cbn [obind]. intros [= <-]. apply Hupd, Hcne.
Qed.

(** X1. On the class, besides the six relations, the hook writes one
    thing only, [__abstractmethods__], and only on a class that already has
    that attribute (a class being created does not): it becomes the set of
    the names that are abstract for the class.  Under every other name, lookup
    on the class finds what it found before and the class's own dictionary
    entry is as it was; the class keeps its name. *)
Theorem X1_other_attributes_untouched cls cls' name :
  __init_subclass__ cls = Ret cls' ->
  ~ In name relations ->
  name <> "__abstractmethods__" ->
  getattr cls' name = getattr cls name /\
  cls_dict cls' !! name = cls_dict cls !! name /\
  cls_name cls' = cls_name cls /\
  cls_abstractmethods cls' =
  match cls_abstractmethods cls with
  | None => None
  | Some _ => Some (inherited_abstracts cls' ∪ own_abstracts cls')
  end.
Proof.
  intros Hreg Hout _.
  destruct (init_subclass_inv _ _ Hreg) as (_ & _ & _ & Hget).
  split; [|split; [|split]].
  - rewrite Hget. apply registered_attr_other, Hout.
  - apply (init_subclass_cls_dict_other _ _ _ Hreg Hout).
  - symmetry. apply cls_name_same_base, same_base_init_subclass, Hreg.
  - apply init_subclass_abstractmethods, Hreg.
Qed.

Lemma X1_other_attributes_untouched_witness :
  getattr (the (__init_subclass__ with_describe)) "describe"
  = getattr with_describe "describe" /\
  cls_dict (the (__init_subclass__ with_describe)) !! "describe"
  = cls_dict with_describe !! "describe" /\
  cls_name (the (__init_subclass__ with_describe)) = cls_name with_describe /\
  cls_abstractmethods (the (__init_subclass__ with_describe)) = None /\
  cls_abstractmethods (the (__init_subclass__ Described))
  = Some {[ "describe" ]}.
Proof.
  destruct (X1_other_attributes_untouched with_describe
              (the (__init_subclass__ with_describe)) "describe")
    as (H1 & H2 & H3 & H4).
  - by_evaluation.
  - unfold relations. simpl. intuition discriminate.
  - discriminate.
  - destruct (X1_other_attributes_untouched Described
                (the (__init_subclass__ Described)) "describe")
      as (_ & _ & _ & H5).
    + by_evaluation.
    + unfold relations. simpl. intuition discriminate.
    + discriminate.
    + repeat (split; [assumption|]).
      rewrite H5. by_evaluation.
Defined.

(** X2. Below a class that has all six relations concretely, a subclass
    whose body binds every relation it mentions to a function that is not
    abstract (not to [None] either) is defined without error and the hook
    writes nothing: the new class's own dictionary is its body, and what
    the body does not define is what the base has.  In particular a
    relation the base derived from its root is not derived again, even
    when the body supplies a relation of higher precedence. *)
Theorem X2_subclass_of_ordered_class name namespace base :
  (forall op, In op relations -> is_concrete base op = true) ->
  (forall op fn, In op relations -> namespace !! op = Some fn ->
                 fn <> PyNone /\ isabstractmethod fn = false) ->
  exists C,
    class_statement name namespace base = Ret C /\
    cls_dict C = namespace /\
    forall attr_name, namespace !! attr_name = None ->
                      getattr C attr_name = getattr base attr_name.
Proof.
  intros Hbase Hbody.
  set (cls := Subclass name namespace None base).
  assert (Hall : forall op, In op relations -> is_concrete cls op = true).
  { intros op Hop. unfold is_concrete, cls. cbn [getattr].
    destruct (namespace !! op) as [fn|] eqn:E.
    - destruct (Hbody op fn Hop E) as [Hnot Hflag].
      destruct fn; [rewrite Hflag; reflexivity|reflexivity|congruence].
    - apply (Hbase op Hop). }
  assert (Hen : is_concrete cls "__eq__" || is_concrete cls "__ne__" = true).
  { rewrite Hall by (unfold relations; simpl; auto). reflexivity. }
  destruct (init_subclass_spec cls Hen) as (cls' & Hreg & _ & Hget).
  exists (_abc_init cls').
  split; [unfold class_statement; fold cls; rewrite Hreg; reflexivity|].
  split.
  - rewrite cls_dict__abc_init. apply map_eq. intros k.
    destruct (decide (In k relations)) as [Hk|Hk].
    + apply (init_subclass_cls_dict _ _ _ Hreg (Hall k Hk)).
    + apply (init_subclass_cls_dict_other _ _ _ Hreg Hk).
  - intros attr_name Hnone. rewrite getattr__abc_init, Hget.
    assert (Hsame : getattr cls attr_name = getattr base attr_name).
    { unfold cls. cbn [getattr]. rewrite Hnone. reflexivity. }
    destruct (decide (In attr_name relations)) as [Hk|Hk].
    + unfold registered_attr. rewrite (Hall _ Hk). exact Hsame.
    + rewrite registered_attr_other by exact Hk. exact Hsame.
Qed.

Lemma ByName_body_concrete op fn :
  In op relations ->
  ({[ "__lt__" := PyFunc false ByName__lt__ ]} : gmap string method) !! op
  = Some fn ->
  fn <> PyNone /\ isabstractmethod fn = false.
Proof.
  intros _ H. apply lookup_singleton_Some in H as [_ <-].
  split; [discriminate|reflexivity].
Qed.

Lemma Student_relations_concrete op :
  In op relations -> is_concrete (the Student) op = true.
Proof.
  unfold relations. simpl.
  intros [<-|[<-|[<-|[<-|[<-|[<-|[]]]]]]]; by_evaluation.
Qed.

Lemma X2_subclass_of_ordered_class_witness :
  exists C,
    class_statement "ByName" {[ "__lt__" := PyFunc false ByName__lt__ ]}
      (the Student) = Ret C /\
    cls_dict C = {[ "__lt__" := PyFunc false ByName__lt__ ]} /\
    getattr C "__gt__" = Some (Synth gt_from_le).
Proof.
  destruct (X2_subclass_of_ordered_class "ByName"
              {[ "__lt__" := PyFunc false ByName__lt__ ]} (the Student)
              Student_relations_concrete ByName_body_concrete)
    as (C & Hdef & Hdict & Hinherit).
  exists C. split; [exact Hdef|]. split; [exact Hdict|].
  rewrite Hinherit; by_evaluation.
Defined.

(** ** The operators on two instances of one class *)

Lemma slot_found rec a op b fn :
  getattr (ob_type a) (dunder op) = Some fn ->
  slot_tp_richcompare rec a b op = call_method rec a (dunder op) b.
Proof.
  intros H. unfold slot_tp_richcompare, call_method. rewrite H. reflexivity.
Qed.

(** Both operands' methods decline. *)
Lemma operator_declined depth op a b t1 t2 :
  ob_type b = ob_type a ->
  call_method (call depth) a (dunder op) b = (t1, Ret NotImplemented) ->
  call_method (call depth) b (dunder (swapped_op op)) a
  = (t2, Ret NotImplemented) ->
  py_compare depth op a b =
  (t1 ++ t2,
   match op with
   | Py_EQ => Ret (VBool (py_is a b))
   | Py_NE => Ret (VBool (negb (py_is a b)))
   | _ => Raise TypeError
   end).
Proof.
  intros Htype Hab Hba. unfold py_compare, richcompare.
  rewrite Htype, same_type_refl. cbn [negb andb]. unfold ret at 1.
  rewrite bind_Ret. cbn [is_NotImplemented negb app].
  assert (H1 : slot_tp_richcompare (call depth) a b op
               = (t1, Ret NotImplemented)).
  { unfold slot_tp_richcompare. unfold call_method in Hab.
    destruct (getattr (ob_type a) (dunder op)); [exact Hab|discriminate]. }
  assert (H2 : slot_tp_richcompare (call depth) b a (swapped_op op)
               = (t2, Ret NotImplemented)).
  { unfold slot_tp_richcompare. unfold call_method in Hba.
    destruct (getattr (ob_type b) (dunder (swapped_op op)));
      [exact Hba|discriminate]. }
  rewrite H1, bind_Ret. cbn [is_NotImplemented negb].
  rewrite H2, bind_Ret. cbn [is_NotImplemented negb].
  destruct op; cbn [ret raise trace result fst snd];
    rewrite app_nil_r; reflexivity.
Qed.

(** The value of an identity depends on EQ and NE through their results
    only. *)
Lemma closed_form_result_ext root target r (EQ NE EQ' NE' : M value) form :
  result EQ = result EQ' -> result NE = result NE' ->
  closed_form root target r EQ NE = Some form ->
  exists form',
    closed_form root target r EQ' NE' = Some form' /\
    result form = result form'.
Proof.
  intros He Hn Hform.
  destruct root, target; try discriminate; injection Hform as <-;
    eexists; (split; [reflexivity|]); destruct r; simpl; auto.
Qed.

Lemma conversion_not_root root : conversion root root = None.
Proof.
  unfold conversion. cbn [getitem _compare_conversions].
  repeat match goal with
         | |- context [String.eqb ?k root] =>
             destruct (String.eqb_spec k root) as [<-|_]; [reflexivity|]
         end.
  reflexivity.
Qed.

Lemma dunder_inj op1 op2 : dunder op1 = dunder op2 -> op1 = op2.
Proof. destruct op1, op2; simpl; intros H; try reflexivity; discriminate. Qed.

(** A class statement whose body has [root] as its only concrete ordering
    relation produces the surface derived from [root]. *)
Lemma class_statement_surface name namespace base C root :
  class_statement name namespace base = Ret C ->
  is_concrete (Subclass name namespace None base) (dunder root) = true ->
  In (dunder root) precedence ->
  (forall target, In (dunder target) precedence -> target <> root ->
     is_concrete (Subclass name namespace None base) (dunder target) = false) ->
  surface_from C root.
Proof.
  intros Hdef Hroot Hin Hothers.
  destruct (class_statement_inv _ _ _ _ Hdef) as (cls' & Hreg & ->).
  split; [exact Hin|].
  intros target fn Hconv.
  pose proof (conversion_only_orderings _ _ _ Hconv) as Htarget.
  assert (Hne : target <> root).
  { intros ->. rewrite conversion_not_root in Hconv. discriminate. }
  assert (Hhp : highest_precedence
                  (is_concrete (Subclass name namespace None base))
                = Some (dunder root)).
  { unfold highest_precedence, precedence in *. simpl in Hin |- *.
    pose proof (Hothers Py_LT) as Hlt. pose proof (Hothers Py_LE) as Hle.
    pose proof (Hothers Py_GT) as Hgt. pose proof (Hothers Py_GE) as Hge.
    simpl in Hlt, Hle, Hgt, Hge.
    destruct root; simpl in *; try (exfalso; intuition discriminate);
      rewrite ?Hlt, ?Hle, ?Hgt, ?Hge, ?Hroot by (auto 6; discriminate);
      reflexivity. }
  destruct (installed_from_root_row _ _ _ Hreg Hhp (dunder target))
    as (d & Hd & Hget).
  - exact Htarget.
  - apply Hothers; assumption.
  - rewrite getattr__abc_init, Hget. congruence.
Qed.

(** The value of a relation on a class whose surface is derived from
    [root], when the root and the two equality methods are the author's and
    answer with bools. *)
Lemma surface_relation_value C root depth a b fe beq fn bne fr broot e n r op :
  surface_from C root ->
  ob_type a = C -> ob_type b = C ->
  getattr C "__eq__" = Some (PyFunc fe beq) ->
  getattr C "__ne__" = Some (PyFunc fn bne) ->
  getattr C (dunder root) = Some (PyFunc fr broot) ->
  beq (ob_self a) (ob_self b) = Ret (VBool e) ->
  bne (ob_self a) (ob_self b) = Ret (VBool n) ->
  broot (ob_self a) (ob_self b) = Ret (VBool r) ->
  In op orderings ->
  (op = root /\
   result (py_compare (S (S depth)) op a b) = Ret (VBool r)) \/
  (exists form,
     closed_form root op r (ret (VBool e)) (ret (VBool n)) = Some form /\
     result (py_compare (S (S depth)) op a b) = result form).
Proof.
  intros [Hin Hsurf] Ha Hb Heq Hne Hroot Hbeq Hbne Hbroot Hop.
  assert (Hsame : same_type (ob_type a) (ob_type b) = true)
    by (rewrite Ha, Hb; apply same_type_refl).
  clear Hb. subst C.
  destruct (decide (dunder op = dunder root)) as [Hsameop|Hdiff].
  - apply dunder_inj in Hsameop as ->.
    left. split; [reflexivity|].
    rewrite (operator_returns (S (S depth)) root a b
               [Invoke (dunder root) (id a) (id b)] (VBool r));
      [reflexivity|exact Hsame| |reflexivity].
    rewrite (call_method_author _ a _ b _ _ Hroot), Hbroot. reflexivity.
  - right.
    assert (Hopin : In (dunder op) precedence).
    { unfold orderings in Hop. unfold precedence. simpl in *.
      destruct Hop as [<-|[<-|[<-|[<-|[]]]]]; simpl; auto 6. }
    destruct (conversion_defined (dunder root) (dunder op) Hin Hopin)
      as (d & Hd).
    { congruence. }
    pose proof (Hsurf op d Hd) as Hget.
    assert (Hrootcall : call_method (call (S depth)) a (dunder root) b
                        = ([Invoke (dunder root) (id a) (id b)],
                           Ret (VBool r))).
    { rewrite (call_method_author _ a _ b _ _ Hroot), Hbroot. reflexivity. }
    destruct (derived_closed_form _ _ _ _ _ _ _ _ Hd Hrootcall)
      as (form & Hform & Heval).
    assert (HEQ : py_compare (S depth) Py_EQ a b
                  = ([Invoke "__eq__" (id a) (id b)], Ret (VBool e))).
    { apply operator_returns; [exact Hsame| |reflexivity].
      rewrite (call_method_author _ a _ b _ _ Heq), Hbeq. reflexivity. }
    assert (HNE : py_compare (S depth) Py_NE a b
                  = ([Invoke "__ne__" (id a) (id b)], Ret (VBool n))).
    { apply operator_returns; [exact Hsame| |reflexivity].
      rewrite (call_method_author _ a _ b _ _ Hne), Hbne. reflexivity. }
    destruct (closed_form_result_ext root op r
                (py_compare (S depth) Py_EQ a b)
                (py_compare (S depth) Py_NE a b)
                (ret (VBool e)) (ret (VBool n)) form)
      as (form' & Hform' & Hres);
      [rewrite HEQ; reflexivity|rewrite HNE; reflexivity|exact Hform|].
    exists form'. split; [exact Hform'|].
    rewrite <- Hres.
    assert (Hcall : call_method (call (S (S depth))) a (dunder op) b
                    = (Invoke (dunder op) (id a) (id b)
                         :: trace (call (S (S depth)) (Synth d) a b),
                       result form)).
    { rewrite (call_method_found _ a _ b _ Hget), Heval. reflexivity. }
    assert (Hbool : exists v, result form = Ret (VBool v)).
    { rewrite Hres. clear -Hform'.
      destruct root, op; try discriminate; injection Hform' as <-;
        destruct r; simpl; eauto. }
    destruct Hbool as (v & Hv). rewrite Hv in Hcall |- *.
    rewrite (operator_returns _ op a b _ (VBool v) Hsame Hcall eq_refl).
    reflexivity.
Qed.

(** X3. On a class whose orderings are the author's root and the three
    functions the table derives from it, and whose [__eq__] and [__ne__]
    are the author's and contradict each other on a pair as they should,
    the four operators answer a pair of instances of that very class with
    bools such that [>] is the negation of [<=] and [>=] the negation of
    [<]. *)
Theorem X3_complementary_relations C root depth a b fe beq fn bne fr broot
    e r :
  surface_from C root ->
  ob_type a = C -> ob_type b = C ->
  getattr C "__eq__" = Some (PyFunc fe beq) ->
  getattr C "__ne__" = Some (PyFunc fn bne) ->
  getattr C (dunder root) = Some (PyFunc fr broot) ->
  beq (ob_self a) (ob_self b) = Ret (VBool e) ->
  bne (ob_self a) (ob_self b) = Ret (VBool (negb e)) ->
  broot (ob_self a) (ob_self b) = Ret (VBool r) ->
  exists lt le gt ge : bool,
    result (py_compare (S (S depth)) Py_LT a b) = Ret (VBool lt) /\
    result (py_compare (S (S depth)) Py_LE a b) = Ret (VBool le) /\
    result (py_compare (S (S depth)) Py_GT a b) = Ret (VBool gt) /\
    result (py_compare (S (S depth)) Py_GE a b) = Ret (VBool ge) /\
    gt = negb le /\ ge = negb lt.
Proof.
  intros Hsurf Ha Hb Heq Hne Hroot Hbeq Hbne Hbroot.
  pose proof (fun op => surface_relation_value C root depth a b
                          fe beq fn bne fr broot e (negb e) r op
                          Hsurf Ha Hb Heq Hne Hroot Hbeq Hbne Hbroot)
    as Hval.
  assert (Hrootin : In root orderings).
  { destruct Hsurf as [Hin _]. unfold precedence in Hin. unfold orderings.
    destruct root; simpl in *; intuition discriminate. }
  assert (Hops : forall op, In op orderings ->
            exists v, result (py_compare (S (S depth)) op a b) = Ret (VBool v)
                      /\ ((op = root /\ v = r) \/
                          closed_form root op r (ret (VBool e))
                            (ret (VBool (negb e))) = Some (ret (VBool v)))).
  { intros op Hop. destruct (Hval op Hop) as [[-> H]|(form & Hform & H)].
    - exists r. split; [exact H|]. left. split; reflexivity.
    - destruct root, op; try discriminate Hform; injection Hform as <-;
        destruct r, e; simpl in H |- *; eexists; split;
        try exact H; right; reflexivity. }
  destruct (Hops Py_LT) as (lt & H1 & C1); [unfold orderings; simpl; auto|].
  destruct (Hops Py_LE) as (le & H2 & C2); [unfold orderings; simpl; auto|].
  destruct (Hops Py_GT) as (gt & H3 & C3); [unfold orderings; simpl; auto|].
  destruct (Hops Py_GE) as (ge & H4 & C4); [unfold orderings; simpl; auto 6|].
  exists lt, le, gt, ge. repeat (split; [assumption|]).
  clear -Hrootin C1 C2 C3 C4.
  unfold orderings in Hrootin. simpl in Hrootin.
  destruct Hrootin as [<-|[<-|[<-|[<-|[]]]]];
    destruct C1 as [[? ->]|C1], C2 as [[? ->]|C2],
             C3 as [[? ->]|C3], C4 as [[? ->]|C4];
    try discriminate;
    destruct r, e; simpl in *;
    repeat match goal with
           | H : Some _ = Some _ |- _ => injection H as H
           end;
    unfold ret in *;
    repeat match goal with
           | H : (_, Ret (VBool _)) = (_, Ret (VBool _)) |- _ =>
               injection H as H
           end;
    subst; split; reflexivity.
Qed.

Lemma Ranked_surface : surface_from Ranked Py_GT.
Proof.
  apply (class_statement_surface "Ranked" Ranked_namespace Sortable);
    try by_evaluation.
  - unfold precedence. simpl. auto 6.
  - intros target Hin Hne. unfold precedence in Hin. simpl in Hin.
    destruct target; simpl in *; try congruence; try by_evaluation;
      exfalso; intuition discriminate.
Qed.

Lemma X3_complementary_relations_witness :
  exists lt le gt ge : bool,
    result (py_compare 1000 Py_LT (ranked 2) (ranked 1)) = Ret (VBool lt) /\
    result (py_compare 1000 Py_LE (ranked 2) (ranked 1)) = Ret (VBool le) /\
    result (py_compare 1000 Py_GT (ranked 2) (ranked 1)) = Ret (VBool gt) /\
    result (py_compare 1000 Py_GE (ranked 2) (ranked 1)) = Ret (VBool ge) /\
    gt = negb le /\ ge = negb lt.
Proof.
  eapply (X3_complementary_relations Ranked Py_GT 998 (ranked 2) (ranked 1)
            _ _ _ _ _ _ false true Ranked_surface);
    by_evaluation.
Defined.

Lemma call_method_result rec a name b fn :
  getattr (ob_type a) name = Some fn ->
  result (call_method rec a name b) = result (rec fn a b).
Proof. intros H. rewrite (call_method_found _ a name b fn H). reflexivity. Qed.

(** X4. The defect of the two equality functions reaches the orderings.
    For two instances of one class whose [__ne__] is [_ne__from_eq] (and
    that is not hidden by an attribute of the instance), a derived relation
    evaluates to its identity with [RecursionError] raised in place of NE,
    so it raises whenever the root's answer leaves the decision to NE;
    likewise with EQ on a class whose [__eq__] is [_eq__from_ne]. *)
Theorem X4_recursion_reaches_orderings root target fn depth a b t r :
  conversion (dunder root) (dunder target) = Some fn ->
  getattr (ob_type a) (dunder target) = Some (Synth fn) ->
  ob_type b = ob_type a ->
  call_method (call depth) a (dunder root) b = (t, Ret (VBool r)) ->
  (getattr (ob_type a) "__ne__" = Some (Synth ne_from_eq) ->
   ob_dict (ob_self a) !! "__ne__" = None ->
   exists form,
     closed_form root target r
       (py_compare depth Py_EQ a b) (raise RecursionError) = Some form /\
     result (call_method (call (S depth)) a (dunder target) b)
     = result form) /\
  (getattr (ob_type a) "__eq__" = Some (Synth eq_from_ne) ->
   ob_dict (ob_self a) !! "__eq__" = None ->
   exists form,
     closed_form root target r
       (raise RecursionError) (py_compare depth Py_NE a b) = Some form /\
     result (call_method (call (S depth)) a (dunder target) b)
     = result form).
Proof.
  intros Hconv Hget Htype Hroot.
  assert (Hsame : same_type (ob_type a) (ob_type b) = true)
    by (rewrite Htype; apply same_type_refl).
  destruct (derived_closed_form _ _ _ _ _ _ _ _ Hconv Hroot)
    as (form & Hform & Heval).
  assert (Hres : result (call_method (call (S depth)) a (dunder target) b)
                 = result form).
  { rewrite (call_method_result _ a _ b _ Hget), Heval. reflexivity. }
  split; intros Hbug Hown.
  - destruct (closed_form_result_ext root target r
                (py_compare depth Py_EQ a b) (py_compare depth Py_NE a b)
                (py_compare depth Py_EQ a b) (raise RecursionError) form)
      as (form' & Hform' & Hsameres); [reflexivity| |exact Hform|].
    + apply (operator_raises depth Py_NE a b _ _ Hsame Hbug).
      apply ne_from_eq_exhausts; assumption.
    + exists form'. split; [exact Hform'|]. congruence.
  - destruct (closed_form_result_ext root target r
                (py_compare depth Py_EQ a b) (py_compare depth Py_NE a b)
                (raise RecursionError) (py_compare depth Py_NE a b) form)
      as (form' & Hform' & Hsameres); [|reflexivity|exact Hform|].
    + apply (operator_raises depth Py_EQ a b _ _ Hsame Hbug).
      apply eq_from_ne_exhausts; assumption.
    + exists form'. split; [exact Hform'|]. congruence.
Qed.

Lemma X4_recursion_reaches_orderings_witness :
  result (call_method (call 1000) (student 1 "A" 70) "__lt__"
            (student 2 "B" 90))
  = Raise RecursionError.
Proof.
  destruct (X4_recursion_reaches_orderings Py_LE Py_LT lt_from_le 999
              (student 1 "A" 70) (student 2 "B" 90)
              [Invoke "__le__" 1 2] true
              ltac:(by_evaluation) ltac:(by_evaluation)
              ltac:(reflexivity) ltac:(by_evaluation))
    as [Hne _].
  destruct (Hne ltac:(by_evaluation) ltac:(by_evaluation))
    as (form & Hform & Hres).
  injection Hform as <-. exact Hres.
Defined.

(** ** Pairs the root declines *)

Lemma surface_relation_declines C root depth x y fr broot op :
  surface_from C root ->
  ob_type x = C ->
  getattr C (dunder root) = Some (PyFunc fr broot) ->
  broot (ob_self x) (ob_self y) = Ret NotImplemented ->
  In op orderings ->
  exists t,
    call_method (call (S (S depth))) x (dunder op) y
    = (t, Ret NotImplemented).
Proof.
  intros [Hin Hsurf] Hx Hroot Hdecl Hop. subst C.
  destruct (decide (dunder op = dunder root)) as [Hsameop|Hdiff].
  - apply dunder_inj in Hsameop as ->. eexists.
    rewrite (call_method_author _ x _ y _ _ Hroot), Hdecl. reflexivity.
  - assert (Hopin : In (dunder op) precedence).
    { unfold orderings in Hop. unfold precedence. simpl in *.
      destruct Hop as [<-|[<-|[<-|[<-|[]]]]]; simpl; auto 6. }
    destruct (conversion_defined (dunder root) (dunder op) Hin Hopin)
      as (d & Hd); [congruence|].
    eexists.
    rewrite (call_method_found _ x _ y _ (Hsurf op d Hd)).
    rewrite (derived_NotImplemented (dunder root) (dunder op) d (S depth) x y
               [Invoke (dunder root) (id x) (id y)] Hd).
    + reflexivity.
    + rewrite (call_method_author _ x _ y _ _ Hroot), Hdecl. reflexivity.
Qed.

Lemma swapped_op_ordering op : In op orderings -> In (swapped_op op) orderings.
Proof.
  unfold orderings. simpl.
  intros [<-|[<-|[<-|[<-|[]]]]]; simpl; auto 6.
Qed.

(** X5. On a class whose orderings are the author's root and the functions
    derived from it, a pair of instances that the root declines in both
    orders cannot be ordered at all: each of [<], [<=], [>], [>=] raises
    [TypeError] (none of them answers [False]). *)
Theorem X5_declined_both_ways_raises C root depth a b fr broot op :
  surface_from C root ->
  ob_type a = C -> ob_type b = C ->
  getattr C (dunder root) = Some (PyFunc fr broot) ->
  broot (ob_self a) (ob_self b) = Ret NotImplemented ->
  broot (ob_self b) (ob_self a) = Ret NotImplemented ->
  In op orderings ->
  result (py_compare (S (S depth)) op a b) = Raise TypeError.
Proof.
  intros Hsurf Ha Hb Hroot Hab Hba Hop.
  destruct (surface_relation_declines C root depth a b fr broot op
              Hsurf Ha Hroot Hab Hop) as (t1 & H1).
  destruct (surface_relation_declines C root depth b a fr broot
              (swapped_op op) Hsurf Hb Hroot Hba (swapped_op_ordering _ Hop))
    as (t2 & H2).
  rewrite (operator_declined _ op a b t1 t2 ltac:(congruence) H1 H2).
  unfold orderings in Hop. simpl in Hop.
  destruct Hop as [<-|[<-|[<-|[<-|[]]]]]; reflexivity.
Qed.

Lemma lt_declines_surface : surface_from lt_declines Py_LT.
Proof.
  apply (class_statement_surface "V"
           {[ "__eq__" := PyFunc false
                (fun a b => Ret (VBool (N.eqb (ob_id a) (ob_id b))));
              "__lt__" := PyFunc false (fun _ _ => Ret NotImplemented) ]}
           Sortable); try by_evaluation.
  - unfold precedence. simpl. auto 6.
  - intros target Hin Hne. unfold precedence in Hin. simpl in Hin.
    destruct target; simpl in *; try congruence; try by_evaluation;
      exfalso; intuition discriminate.
Qed.

Lemma X5_declined_both_ways_raises_witness :
  result (py_compare 1000 Py_GE
            {| ob_type := lt_declines;
               ob_self := {| ob_id := 1; ob_dict := ∅ |} |}
            {| ob_type := lt_declines;
               ob_self := {| ob_id := 2; ob_dict := ∅ |} |})
  = Raise TypeError.
Proof.
  apply (X5_declined_both_ways_raises lt_declines Py_LT 998 _ _
           false (fun _ _ => Ret NotImplemented) Py_GE lt_declines_surface);
    [reflexivity|reflexivity|by_evaluation|reflexivity|reflexivity|].
  unfold orderings. simpl. auto 6.
Defined.

(** X6. When the author's [__eq__] declines a pair of instances of the
    class in both orders, the derived relations that consult EQ do not
    decline: [self == other] falls back on identity, and the relation
    evaluates to its identity with [a is b] in place of EQ.  Likewise for
    NE, with [a is not b]. *)
Theorem X6_declined_equality_is_identity root target fn depth a b t r :
  conversion (dunder root) (dunder target) = Some fn ->
  getattr (ob_type a) (dunder target) = Some (Synth fn) ->
  ob_type b = ob_type a ->
  call_method (call (S depth)) a (dunder root) b = (t, Ret (VBool r)) ->
  (forall flag body,
     getattr (ob_type a) "__eq__" = Some (PyFunc flag body) ->
     body (ob_self a) (ob_self b) = Ret NotImplemented ->
     body (ob_self b) (ob_self a) = Ret NotImplemented ->
     exists form,
       closed_form root target r
         (ret (VBool (py_is a b))) (py_compare (S depth) Py_NE a b)
       = Some form /\
       result (call_method (call (S (S depth))) a (dunder target) b)
       = result form) /\
  (forall flag body,
     getattr (ob_type a) "__ne__" = Some (PyFunc flag body) ->
     body (ob_self a) (ob_self b) = Ret NotImplemented ->
     body (ob_self b) (ob_self a) = Ret NotImplemented ->
     exists form,
       closed_form root target r
         (py_compare (S depth) Py_EQ a b) (ret (VBool (negb (py_is a b))))
       = Some form /\
       result (call_method (call (S (S depth))) a (dunder target) b)
       = result form).
Proof.
  intros Hconv Hget Htype Hroot.
  destruct (derived_closed_form _ _ _ _ _ _ _ _ Hconv Hroot)
    as (form & Hform & Heval).
  assert (Hres : result (call_method (call (S (S depth))) a (dunder target) b)
                 = result form).
  { rewrite (call_method_result _ a _ b _ Hget), Heval. reflexivity. }
  assert (Hop : forall op flag body,
            getattr (ob_type a) (dunder op) = Some (PyFunc flag body) ->
            swapped_op op = op ->
            body (ob_self a) (ob_self b) = Ret NotImplemented ->
            body (ob_self b) (ob_self a) = Ret NotImplemented ->
            py_compare (S depth) op a b =
            ([Invoke (dunder op) (id a) (id b)]
               ++ [Invoke (dunder op) (id b) (id a)],
             match op with
             | Py_EQ => Ret (VBool (py_is a b))
             | Py_NE => Ret (VBool (negb (py_is a b)))
             | _ => Raise TypeError
             end)).
  { intros op flag body Hfn Hsw Hab Hba.
    apply operator_declined; [exact Htype| |].
    - rewrite (call_method_author _ a _ b _ _ Hfn), Hab. reflexivity.
    - rewrite Hsw. rewrite <- Htype in Hfn.
      rewrite (call_method_author _ b _ a _ _ Hfn), Hba. reflexivity. }
  split; intros flag body Hfn Hab Hba.
  - destruct (closed_form_result_ext root target r
                (py_compare (S depth) Py_EQ a b)
                (py_compare (S depth) Py_NE a b)
                (ret (VBool (py_is a b)))
                (py_compare (S depth) Py_NE a b) form)
      as (form' & Hform' & Hsameres); [|reflexivity|exact Hform|].
    + rewrite (Hop Py_EQ flag body Hfn eq_refl Hab Hba). reflexivity.
    + exists form'. split; [exact Hform'|]. congruence.
  - destruct (closed_form_result_ext root target r
                (py_compare (S depth) Py_EQ a b)
                (py_compare (S depth) Py_NE a b)
                (py_compare (S depth) Py_EQ a b)
                (ret (VBool (negb (py_is a b)))) form)
      as (form' & Hform' & Hsameres); [reflexivity| |exact Hform|].
    + rewrite (Hop Py_NE flag body Hfn eq_refl Hab Hba). reflexivity.
    + exists form'. split; [exact Hform'|]. congruence.
Qed.

Lemma X6_declined_equality_is_identity_witness :
  result (call_method (call 1000) (aloof 1) "__ge__" (aloof 2))
  = Ret (VBool false) /\
  result (call_method (call 1000) (aloof 1) "__ge__" (aloof 1))
  = Ret (VBool true).
Proof.
  split.
  - destruct (X6_declined_equality_is_identity Py_LE Py_GE ge_from_le 998
                (aloof 1) (aloof 2) [Invoke "__le__" 1 2] true
                ltac:(by_evaluation) ltac:(by_evaluation)
                ltac:(reflexivity) ltac:(by_evaluation))
      as [Heq _].
    destruct (Heq false (fun _ _ => Ret NotImplemented)
                ltac:(by_evaluation) ltac:(reflexivity) ltac:(reflexivity))
      as (form & Hform & Hres).
    injection Hform as <-. exact Hres.
  - destruct (X6_declined_equality_is_identity Py_LE Py_GE ge_from_le 998
                (aloof 1) (aloof 1) [Invoke "__le__" 1 1] true
                ltac:(by_evaluation) ltac:(by_evaluation)
                ltac:(reflexivity) ltac:(by_evaluation))
      as [Heq _].
    destruct (Heq false (fun _ _ => Ret NotImplemented)
                ltac:(by_evaluation) ltac:(reflexivity) ltac:(reflexivity))
      as (form & Hform & Hres).
    injection Hform as <-. exact Hres.
Defined.

(** ** Reporting and instantiating *)

Lemma relation_abstract_unless_None cls op :
  In op relations ->
  getattr cls op <> Some PyNone ->
  is_abstract cls op = negb (is_concrete cls op).
Proof.
  intros Hop Hnot. destruct (getattr_relation cls op Hop) as (fn & Hfn).
  unfold is_abstract, is_concrete. rewrite Hfn in *.
  destruct fn as [[]| |]; simpl; congruence.
Qed.

(** X7. For a class produced by a class statement, [print_method_types]
    prints no ['Not a class'] line and says ['Abstract'] for exactly the
    names under which lookup on the class finds an abstract method.  For a
    relation this is the opposite of the hook's own test [is_concrete],
    except for a relation bound to [None]: the hook does not count it
    concrete, and the report calls it ['Concrete'].  For an object that is
    not a class and has no [__abstractmethods__], it prints ['Not a class']
    and then goes on to call every relation ['Concrete']. *)
Theorem X7_report_matches_abstractness name namespace base C order :
  abstracts_recorded base ->
  class_statement name namespace base = Ret C ->
  print_method_types order (AClass C) =
  map (fun op => String.append op
                   (String.append " "
                      (if is_abstract C op then "Abstract" else "Concrete")))
      order /\
  (forall op, In op relations -> getattr C op <> Some PyNone ->
              is_abstract C op = negb (is_concrete C op)) /\
  (forall op, getattr C op = Some PyNone ->
              is_abstract C op = false /\ is_concrete C op = false) /\
  print_method_types order (NotAClass None) =
  "Not a class" :: map (fun op => String.append op " Concrete") order.
Proof.
  intros Hbase Hdef.
  destruct (class_statement_abstract_names _ _ _ _ Hbase Hdef)
    as (names & Hnames & Hiff).
  split; [|split; [|split]].
  - unfold print_method_types, abstractmethods_or_empty. rewrite Hnames.
    cbn [default app]. apply List.map_ext. intros op.
    destruct (is_abstract C op) eqn:E.
    + rewrite bool_decide_eq_true_2 by (apply Hiff, E). reflexivity.
    + rewrite bool_decide_eq_false_2; [reflexivity|].
      intros Hin. apply Hiff in Hin. congruence.
  - intros op Hop Hnot. apply relation_abstract_unless_None; assumption.
  - intros op HNone. unfold is_abstract, is_concrete. rewrite HNone.
    split; reflexivity.
  - unfold print_method_types, abstractmethods_or_empty. cbn [default app].
    change (String.append " " "Concrete") with " Concrete". reflexivity.
Qed.

Lemma X7_report_matches_abstractness_witness :
  print_method_types relations (AClass (the Person)) =
  ["__eq__ Concrete"; "__ne__ Concrete"; "__lt__ Abstract";
   "__le__ Abstract"; "__gt__ Abstract"; "__ge__ Abstract"] /\
  print_method_types relations (AClass Unordered) =
  ["__eq__ Concrete"; "__ne__ Concrete"; "__lt__ Concrete";
   "__le__ Concrete"; "__gt__ Concrete"; "__ge__ Concrete"] /\
  is_concrete Unordered "__lt__" = false /\
  print_method_types relations (NotAClass None) =
  ["Not a class"; "__eq__ Concrete"; "__ne__ Concrete"; "__lt__ Concrete";
   "__le__ Concrete"; "__gt__ Concrete"; "__ge__ Concrete"].
Proof.
  destruct (X7_report_matches_abstractness "Person" Person_namespace Sortable
              (the Person) relations Sortable_abstracts_recorded
              Person_defined)
    as (Hclass & _ & _ & Hother).
  destruct (X7_report_matches_abstractness "Unordered" Unordered_namespace
              Sortable Unordered relations Sortable_abstracts_recorded
              Unordered_defined)
    as (Hunordered & _ & HNone & _).
  split; [rewrite Hclass; by_evaluation|].
  split; [rewrite Hunordered; by_evaluation|].
  split; [apply (HNone "__lt__"); by_evaluation|].
  rewrite Hother. reflexivity.
Defined.

Lemma unordered_orderings_kept name namespace base C op :
  class_statement name namespace base = Ret C ->
  existsb (is_concrete (Subclass name namespace None base)) _compare_ops
  = false ->
  In op precedence ->
  getattr C op = getattr (Subclass name namespace None base) op.
Proof.
  intros Hdef Hnone Hop.
  rewrite (class_statement_getattr _ _ _ _ Hdef). unfold registered_attr.
  rewrite (existsb_compare_ops_false _ _ Hnone Hop).
  rewrite (highest_precedence_none _ Hnone).
  unfold precedence in Hop. simpl in Hop.
  destruct Hop as [<-|[<-|[<-|[<-|[]]]]]; reflexivity.
Qed.

(** X8. A class produced by a class statement can be instantiated exactly
    when it has no abstract method under any name besides the six
    relations and, as to the orderings, either one of them is concrete in
    its body or a base, or none of the four is abstract (each is bound to
    [None]); otherwise instantiating it raises [TypeError]. *)
Theorem X8_instantiable_iff name namespace base C self :
  abstracts_recorded base ->
  class_statement name namespace base = Ret C ->
  (instantiate C self = Ret {| ob_type := C; ob_self := self |} <->
   (forall other, ~ In other relations ->
      is_abstract (Subclass name namespace None base) other = false) /\
   (existsb (is_concrete (Subclass name namespace None base)) _compare_ops
    = true \/
    forall op, In op precedence ->
      is_abstract (Subclass name namespace None base) op = false)) /\
  (instantiate C self = Ret {| ob_type := C; ob_self := self |} \/
   instantiate C self = Raise TypeError).
Proof.
  intros Hbase Hdef.
  set (cls := Subclass name namespace None base).
  destruct (class_statement_abstract_names _ _ _ _ Hbase Hdef)
    as (names & Hnames & Hiff).
  pose proof (class_statement_getattr _ _ _ _ Hdef) as Hget. fold cls in Hget.
  destruct (class_statement_inv _ _ _ _ Hdef) as (cls' & Hreg & HC).
  fold cls in Hreg.
  assert (Hinst : instantiate C self =
                  if decide (names = ∅)
                  then Ret {| ob_type := C; ob_self := self |}
                  else Raise TypeError).
  { unfold instantiate. rewrite Hnames. reflexivity. }
  assert (Hord : forall op, In op precedence ->
            is_concrete C op = existsb (is_concrete cls) _compare_ops).
  { intros op Hop. rewrite HC. unfold is_concrete at 1.
    rewrite getattr__abc_init. fold (is_concrete cls' op).
    apply (registered_ordering_concrete _ _ _ Hreg Hop). }
  assert (Hother : forall other, ~ In other relations ->
            is_abstract C other = is_abstract cls other).
  { intros other Hout. unfold is_abstract.
    rewrite Hget, (registered_attr_other cls other Hout). reflexivity. }
  assert (Hkept : existsb (is_concrete cls) _compare_ops = false ->
            forall op, In op precedence ->
              is_abstract C op = is_abstract cls op).
  { intros Hnone op Hop. unfold is_abstract.
    rewrite (unordered_orderings_kept _ _ _ _ op Hdef Hnone Hop).
    reflexivity. }
  split; [|rewrite Hinst; case_decide; auto].
  rewrite Hinst. split.
  - case_decide as Hempty; [|discriminate]. intros _.
    assert (Hnoabs : forall x, is_abstract C x = false).
    { intros x. destruct (is_abstract C x) eqn:E; [|reflexivity].
      apply Hiff in E. rewrite Hempty in E. set_solver. }
    split.
    + intros other Hout. rewrite <- (Hother other Hout). apply Hnoabs.
    + destruct (existsb (is_concrete cls) _compare_ops) eqn:Hex;
        [left; reflexivity|right].
      intros op Hop. rewrite <- (Hkept eq_refl op Hop). apply Hnoabs.
  - intros [Hothers Hords].
    case_decide as Hempty; [reflexivity|]. exfalso. apply Hempty.
    apply set_eq. intros x. split; [|set_solver].
    intros Hin. apply Hiff in Hin.
    destruct (decide (In x relations)) as [Hx|Hx];
      [|rewrite (Hother x Hx), (Hothers x Hx) in Hin; discriminate].
    assert (Hcases : x = "__eq__" \/ x = "__ne__" \/ In x precedence).
    { unfold relations in Hx. unfold precedence. simpl in *.
      intuition. }
    destruct (registered_equality_concrete _ _ Hreg) as [He Hn].
    destruct Hcases as [->|[->|Hp]].
    + rewrite HC in Hin. unfold is_abstract in Hin.
      rewrite getattr__abc_init in Hin. fold (is_abstract cls' "__eq__") in Hin.
      rewrite (is_concrete_not_abstract _ _ He) in Hin. discriminate.
    + rewrite HC in Hin. unfold is_abstract in Hin.
      rewrite getattr__abc_init in Hin. fold (is_abstract cls' "__ne__") in Hin.
      rewrite (is_concrete_not_abstract _ _ Hn) in Hin. discriminate.
    + destruct (existsb (is_concrete cls) _compare_ops) eqn:Hex.
      * rewrite (is_concrete_not_abstract C x) in Hin; [discriminate|].
        rewrite Hord by exact Hp. reflexivity.
      * destruct Hords as [Hords|Hords]; [discriminate|].
        rewrite (Hkept eq_refl x Hp), (Hords x Hp) in Hin. discriminate.
Qed.

Lemma Person_abstracts_recorded : abstracts_recorded (the Person).
Proof.
  exact (class_statement_abstracts_recorded _ _ _ _
           Sortable_abstracts_recorded Person_defined).
Qed.

Lemma Unordered_no_other_abstract other :
  ~ In other relations ->
  is_abstract (Subclass "Unordered" Unordered_namespace None Sortable) other
  = false.
Proof.
  intros Hout. unfold is_abstract. cbn [getattr].
  assert (Hnot : forall op, In op relations -> op <> other)
    by (intros op Hop ->; contradiction).
  unfold Unordered_namespace.
  rewrite !lookup_insert_ne by (apply Hnot; unfold relations; simpl; auto 10).
  rewrite lookup_singleton_ne
    by (apply Hnot; unfold relations; simpl; auto 10).
  destruct (Sortable_dict !! other) as [fn|] eqn:E; [|reflexivity].
  apply Sortable_dict_names in E as [Hin _]. contradiction.
Qed.

Lemma X8_instantiable_iff_witness :
  instantiate (the Student) {| ob_id := 1; ob_dict := ∅ |}
  = Ret {| ob_type := the Student;
           ob_self := {| ob_id := 1; ob_dict := ∅ |} |} /\
  instantiate Unordered {| ob_id := 1; ob_dict := ∅ |} = Ret (unordered 1).
Proof.
  split.
  - destruct (X8_instantiable_iff "Student" Student_namespace (the Person)
                (the Student) {| ob_id := 1; ob_dict := ∅ |}
                Person_abstracts_recorded Student_defined)
      as [[_ Hif] _].
    apply Hif. split; [apply Student_no_other_abstract|].
    left. by_evaluation.
  - destruct (X8_instantiable_iff "Unordered" Unordered_namespace Sortable
                Unordered {| ob_id := 1; ob_dict := ∅ |}
                Sortable_abstracts_recorded Unordered_defined)
      as [[_ Hif] _].
    apply Hif. split; [apply Unordered_no_other_abstract|].
    right. intros op Hop. unfold precedence in Hop. simpl in Hop.
    destruct Hop as [<-|[<-|[<-|[<-|[]]]]]; by_evaluation.
Defined.



(** X10. Whenever the hook had to supply [__ne__] to a class, [a != b]
    raises [RecursionError] for every recursion limit and every pair of
    instances of one class, be it that class or a subclass that inherits
    its [__ne__], unless the left instance has an attribute [__ne__] of its
    own; and whenever it had to supply [__eq__], so does [a == b]. *)
Theorem X10_supplied_equality_never_answers name namespace base C depth a b :
  class_statement name namespace base = Ret C ->
  ob_type b = ob_type a ->
  (is_concrete (Subclass name namespace None base) "__ne__" = false ->
   getattr (ob_type a) "__ne__" = getattr C "__ne__" ->
   ob_dict (ob_self a) !! "__ne__" = None ->
   result (py_compare depth Py_NE a b) = Raise RecursionError) /\
  (is_concrete (Subclass name namespace None base) "__eq__" = false ->
   getattr (ob_type a) "__eq__" = getattr C "__eq__" ->
   ob_dict (ob_self a) !! "__eq__" = None ->
   result (py_compare depth Py_EQ a b) = Raise RecursionError).
Proof.
  intros Hdef Htype.
  assert (Hsame : same_type (ob_type a) (ob_type b) = true)
    by (rewrite Htype; apply same_type_refl).
  pose proof (class_statement_getattr _ _ _ _ Hdef) as Hget.
  split; intros Hmissing Hinherits Hown.
  - assert (Hne : getattr (ob_type a) "__ne__" = Some (Synth ne_from_eq)).
    { rewrite Hinherits, Hget. unfold registered_attr. rewrite Hmissing.
      reflexivity. }
    apply (operator_raises depth Py_NE a b _ _ Hsame Hne).
    apply ne_from_eq_exhausts; assumption.
  - assert (Heq : getattr (ob_type a) "__eq__" = Some (Synth eq_from_ne)).
    { rewrite Hinherits, Hget. unfold registered_attr. rewrite Hmissing.
      reflexivity. }
    apply (operator_raises depth Py_EQ a b _ _ Hsame Heq).
    apply eq_from_ne_exhausts; assumption.
Qed.

Lemma X10_supplied_equality_never_answers_witness :
  result (py_compare 1000 Py_NE (student 1 "A" 90) (student 2 "A" 90))
  = Raise RecursionError.
Proof.
  destruct (X10_supplied_equality_never_answers "Person" Person_namespace
              Sortable (the Person) 1000
              (student 1 "A" 90) (student 2 "A" 90)
              Person_defined ltac:(reflexivity))
    as [Hne _].
  apply Hne; by_evaluation.
Defined.
